(** * ColouringBook: the generation-and-assembly pipeline of [src/App.tsx]

    A shallow embedding of the parts of the React component [App] that the
    specification talks about:

    - [hexToRgb] (lines 75-80),
    - [generateSinglePage] (lines 216-260),
    - [handleGenerate] (lines 262-293),
    - [downloadPDF] (lines 295-355),
    - the form's state cells and what the user can do to them
      (lines 202-211 and 396-558),
    - the conditions under which the results section and its download
      button are rendered (lines 606-624),
    - the progress label, the preset buttons and the template buttons
      (lines 443-456, 474-495, 570-571),
    - [FireworksBackground] with its class [Particle] (lines 82-186).

    JavaScript numbers are IEEE binary64 values and are modelled by Rocq's
    primitive floats; strings are modelled by [string].  The two external
    libraries ([@google/genai] and [jsPDF]) are modelled at their interface:
    the image service is an arbitrary oracle, the PDF renderer is the list
    of calls it receives together with a small interpreter that sorts the
    drawn items into sheets. *)

From Stdlib Require Import PrimFloat ZArith List Bool Ascii String Lia.
From Stdlib Require Import DecimalString.
From Stdlib Require Import FloatOps SpecFloat Uint63.
Import ListNotations.

#[local] Set Warnings "-inexact-float".
#[local] Open Scope list_scope.
#[local] Open Scope string_scope.

(* ================================================================== *)
(** ** JavaScript values used by the component *)

Module Js.

(** A JavaScript [number]. *)
Definition number : Set := float.

Definition NaN : number := PrimFloat.nan.

(** The number denoted by a loop counter that started at [0] and was
    incremented [n] times with [i++]. *)
Fixpoint num_of_nat (n : nat) : number :=
  match n with
  | O => 0%float
  | S k => (num_of_nat k + 1)%float
  end.

Fixpoint num_of_pos (p : positive) : number :=
  match p with
  | xH => 1%float
  | xO q => (2 * num_of_pos q)%float
  | xI q => (2 * num_of_pos q + 1)%float
  end.

(** The number with integer value [z] (exact below [2^53]). *)
Definition num_of_Z (z : Z) : number :=
  match z with
  | Z0 => 0%float
  | Zpos p => num_of_pos p
  | Zneg p => (- num_of_pos p)%float
  end.

(** [String(n)] for a non-negative integer. *)
Definition string_of_nat (n : nat) : string :=
  NilEmpty.string_of_uint (Nat.to_uint n).

(** [s.slice(from, to)] for [0 <= from <= to]; indices past the end are
    clamped, as in JavaScript. *)
Definition slice (from to : nat) (s : string) : string :=
  substring from (to - from) s.

(** Value of a digit in radix 16. *)
Definition hexDigit (c : ascii) : option Z :=
  let n := nat_of_ascii c in
  if (48 <=? n)%nat && (n <=? 57)%nat then Some (Z.of_nat (n - 48))
  else if (97 <=? n)%nat && (n <=? 102)%nat then Some (Z.of_nat (n - 87))
  else if (65 <=? n)%nat && (n <=? 70)%nat then Some (Z.of_nat (n - 55))
  else None.

(** White space skipped by [parseInt], among the code units below 256:
    tab, line feed, vertical tab, form feed, carriage return, space and
    the no-break space. *)
Definition isWhiteSpace (c : ascii) : bool :=
  let n := nat_of_ascii c in
  ((9 <=? n)%nat && (n <=? 13)%nat) || (n =? 32)%nat || (n =? 160)%nat.

Fixpoint trimStart (s : string) : string :=
  match s with
  | String c s' => if isWhiteSpace c then trimStart s' else s
  | EmptyString => s
  end.

(** The longest prefix of radix-16 digits, read as an integer; [None]
    when that prefix is empty. *)
Fixpoint hexPrefix (s : string) (acc : option Z) : option Z :=
  match s with
  | String c s' =>
      match hexDigit c with
      | Some d =>
          hexPrefix s' (Some (16 * match acc with Some a => a | None => 0 end + d)%Z)
      | None => acc
      end
  | EmptyString => acc
  end.

Definition stripSign (s : string) : Z * string :=
  match s with
  | String "-" s' => ((-1)%Z, s')
  | String "+" s' => (1%Z, s')
  | _ => (1%Z, s)
  end.

Definition stripHexPrefix (s : string) : string :=
  match s with
  | String "0" (String "x" s') => s'
  | String "0" (String "X" s') => s'
  | _ => s
  end.

(** [parseInt(s, 16)]: leading white space, an optional sign, an optional
    [0x], then the longest run of hexadecimal digits; [NaN] when there is
    no digit.  A minus sign negates the number read, so that [-0] is the
    negative zero. *)
Definition parseInt16 (s : string) : number :=
  let '(sign, s1) := stripSign (trimStart s) in
  match hexPrefix (stripHexPrefix s1) None with
  | Some v => if (sign <? 0)%Z then (- num_of_Z v)%float else num_of_Z v
  | None => NaN
  end.

End Js.

(* ================================================================== *)
(** ** Types and constants of the component (lines 25-80) *)

Record GeneratedPage : Type := mkPage {
  id : nat;
  base64 : string;
  prompt : string
}.

Record CoverTemplate : Type := mkTemplate {
  tid : string;
  name : string;
  t_bgColor : string;
  t_textColor : string;
  t_accentColor : string
}.

Definition MODEL_NAME : string := "gemini-2.5-flash-image".
Definition PAGE_COUNT : nat := 5.

Definition TEMPLATES : list CoverTemplate :=
  [ mkTemplate "classic" "Classic" "#f5f5f0" "#282828" "#f97316";
    mkTemplate "sunshine" "Sunshine" "#fffbeb" "#92400e" "#f59e0b";
    mkTemplate "sky" "Sky" "#f0f9ff" "#075985" "#0ea5e9";
    mkTemplate "berry" "Berry" "#fdf2f8" "#9d174d" "#ec4899" ].

Definition hexToRgb (hex : string) : Js.number * Js.number * Js.number :=
  let r := Js.parseInt16 (Js.slice 1 3 hex) in
  let g := Js.parseInt16 (Js.slice 3 5 hex) in
  let b := Js.parseInt16 (Js.slice 5 7 hex) in
  (r, g, b).

(* ================================================================== *)
(** ** The image service ([@google/genai]), at its interface *)

Module GenAI.

Record Blob : Type := mkBlob {
  data : option string;
  mimeType : option string
}.

Record Part : Type := mkPart {
  text : option string;
  inlineData : option Blob
}.

Record Content : Type := mkContent { parts : option (list Part) }.

Record Candidate : Type := mkCandidate { content : option Content }.

Record GenerateContentResponse : Type := mkResponse {
  candidates : option (list Candidate)
}.

(** The argument of [ai.models.generateContent]. *)
Record Request : Type := mkRequest {
  model : string;
  contents_text : string;
  aspectRatio : string
}.

(** The promise returned by the service either rejects or resolves. *)
Inductive Result : Type :=
| Rejected (reason : string)
| Resolved (response : GenerateContentResponse).

(** The service is outside the program: its answer to a request may
    depend on the request and on how many requests were made before. *)
Definition Service : Type := nat -> Request -> Result.

End GenAI.

(* ================================================================== *)
(** ** Component state and observable effects *)

(** The [useState] cells of [App] (lines 202-211). *)
Record AppState : Type := mkState {
  childName : string;
  theme : string;
  pageCount : nat;
  bgColor : string;
  textColor : string;
  accentColor : string;
  isGenerating : bool;
  progress : Js.number;
  pages : list GeneratedPage;
  error : option string
}.

(** What can be thrown inside [generateSinglePage]. *)
Inductive Exn : Type :=
| ServiceRejection (reason : string)
| JsError (message : string).

(** Effects of [handleGenerate], in the order they happen. *)
Inductive Event : Type :=
| PreventDefault
| SetIsGenerating (b : bool)
| SetProgress (p : Js.number)
| SetPages (ps : list GeneratedPage)
| SetError (e : option string)
| GenerateContent (req : GenAI.Request)
| ConsoleError (message : string) (err : Exn)
| Confetti.

Definition Trace : Type := list Event.

(** State setters act on the cell they belong to; the other effects leave
    the component state alone. *)
Definition applyEvent (st : AppState) (ev : Event) : AppState :=
  match ev with
  | SetIsGenerating b =>
      mkState (childName st) (theme st) (pageCount st) (bgColor st)
              (textColor st) (accentColor st) b (progress st) (pages st)
              (error st)
  | SetProgress p =>
      mkState (childName st) (theme st) (pageCount st) (bgColor st)
              (textColor st) (accentColor st) (isGenerating st) p (pages st)
              (error st)
  | SetPages ps =>
      mkState (childName st) (theme st) (pageCount st) (bgColor st)
              (textColor st) (accentColor st) (isGenerating st) (progress st)
              ps (error st)
  | SetError e =>
      mkState (childName st) (theme st) (pageCount st) (bgColor st)
              (textColor st) (accentColor st) (isGenerating st) (progress st)
              (pages st) e
  | PreventDefault | GenerateContent _ | ConsoleError _ _ | Confetti => st
  end.

Definition applyTrace (st : AppState) (tr : Trace) : AppState :=
  fold_left applyEvent tr st.

(* ================================================================== *)
(** ** [generateSinglePage] (lines 216-260) *)

Definition variations (userTheme : string) : list string :=
  [ "A main character " ++ userTheme ++ " coloring page";
    "A scenic background of " ++ userTheme ++ " coloring page";
    "An action scene with " ++ userTheme ++ " coloring page";
    "A close up detail of " ++ userTheme ++ " coloring page";
    "A group of characters in " ++ userTheme ++ " coloring page" ].

(** A template literal prints a missing value as [undefined]. *)
Definition interpolate (v : option string) : string :=
  match v with
  | Some s => s
  | None => "undefined"
  end.

Definition promptFor (pageIndex : nat) (userTheme : string) : string :=
  let vs := variations userTheme in
  "Black and white coloring book page for children. Simple line art, thick black outlines, no shading, no gradients, white background. Subject: "
  ++ interpolate (nth_error vs (pageIndex mod List.length vs))
  ++ ". High contrast, easy to color.".

Definition requestFor (promptText : string) : GenAI.Request :=
  GenAI.mkRequest MODEL_NAME promptText "1:1".

(** [response.candidates?.[0]?.content?.parts || []] *)
Definition responseParts (response : GenAI.GenerateContentResponse)
  : list GenAI.Part :=
  match GenAI.candidates response with
  | Some (candidate :: _) =>
      match GenAI.content candidate with
      | Some c =>
          match GenAI.parts c with
          | Some ps => ps
          | None => []
          end
      | None => []
      end
  | _ => []
  end.

(** The [for ... of] loop of lines 242-247 with its [break]; [acc] is the
    value of the variable [base64] on entry. *)
Fixpoint scanParts (ps : list GenAI.Part) (acc : string) : string :=
  match ps with
  | [] => acc
  | part :: rest =>
      match GenAI.inlineData part with
      | Some blob => "data:image/png;base64," ++ interpolate (GenAI.data blob)
      | None => scanParts rest acc
      end
  end.

Definition isEmptyString (s : string) : bool :=
  match s with
  | EmptyString => true
  | String _ _ => false
  end.

(** One call: the effects it has and what the promise settles to.  [calls]
    is the number of requests the service has received before. *)
Definition generateSinglePage (svc : GenAI.Service) (calls : nat)
    (pageIndex : nat) (userTheme : string) : Trace * (Exn + GeneratedPage) :=
  let prompt := promptFor pageIndex userTheme in
  let req := requestFor prompt in
  let caught (err : Exn) : Trace * (Exn + GeneratedPage) :=
    ([GenerateContent req;
      ConsoleError ("Error generating page " ++ Js.string_of_nat pageIndex ++ ":") err],
     inl err) in
  match svc calls req with
  | GenAI.Rejected reason => caught (ServiceRejection reason)
  | GenAI.Resolved response =>
      let base64 := scanParts (responseParts response) "" in
      if isEmptyString base64
      then caught (JsError "No image data received from AI")
      else ([GenerateContent req], inr (mkPage pageIndex base64 prompt))
  end.

(* ================================================================== *)
(** ** [handleGenerate] (lines 262-293) *)

Definition errorMessage : string :=
  "Oops! Something went wrong while generating the coloring book. Please try again.".

(** The [for] loop of lines 275-280.  [remaining] is [pageCount - i], the
    number of iterations the loop condition still admits, and [calls] the
    number of requests made so far; the result is the trace and whether
    the loop was left by an exception. *)
Fixpoint generateLoop (svc : GenAI.Service) (userTheme : string)
    (count : nat) (remaining i calls : nat) (newPages : list GeneratedPage)
  : Trace * option Exn :=
  match remaining with
  | O => ([], None)
  | S remaining' =>
      match generateSinglePage svc calls i userTheme with
      | (tr, inl err) => (tr, Some err)
      | (tr, inr page) =>
          let newPages' := (newPages ++ [page])%list in
          let '(rest, r) :=
            generateLoop svc userTheme count remaining' (S i) (S calls)
                         newPages' in
          ((tr ++ [SetPages newPages';
                   SetProgress
                     ((Js.num_of_nat i + 1) / Js.num_of_nat count * 100)%float]
               ++ rest)%list, r)
      end
  end.

Definition handleGenerate (svc : GenAI.Service) (st : AppState) : Trace :=
  ([PreventDefault] ++
   if isEmptyString (childName st) || isEmptyString (theme st) then []
   else
     [SetIsGenerating true; SetProgress 0%float; SetPages []; SetError None] ++
     (let '(tr, r) :=
        generateLoop svc (theme st) (pageCount st) (pageCount st - 0) 0 0 [] in
      tr ++
      match r with
      | None => [Confetti]
      | Some _ => [SetError (Some errorMessage)]
      end) ++
     [SetIsGenerating false])%list.

(** The state the component is in once [handleGenerate] has settled. *)
Definition afterGenerate (svc : GenAI.Service) (st : AppState) : AppState :=
  applyTrace st (handleGenerate svc st).

(* ================================================================== *)
(** ** The PDF renderer ([jsPDF]), at its interface *)

Module JsPDF.

(** The arguments of a colour setter. *)
Record Color : Type := mkColor {
  ch1 : Js.number;
  ch2 : Js.number;
  ch3 : Js.number;
  ch4 : option Js.number
}.

Definition rgb (r g b : Js.number) : Color := mkColor r g b None.

(** The calls the component makes on a document. *)
Inductive Call : Type :=
| New (orientation unit format : string)
| SetFillColor (c : Color)
| SetDrawColor (c : Color)
| SetTextColor (c : Color)
| SetFontSize (size : Js.number)
| Rect (x y w h : Js.number) (style : option string)
| Text (s : string) (x y : Js.number) (align : string)
| AddImage (imageData format : string) (x y w h : Js.number)
| AddPage
| Save (filename : string).

(** What ends up on a sheet, with the graphics state it was drawn in. *)
Inductive Item : Type :=
| FilledRect (x y w h : Js.number) (fill : Color)
| StrokedRect (x y w h : Js.number) (stroke : Color)
| TextItem (s : string) (x y : Js.number) (align : string)
           (size : Js.number) (color : Color)
| ImageItem (imageData format : string) (x y w h : Js.number).

Record Doc : Type := mkDoc {
  finished : list (list Item);
  current : list Item;
  fillColor : Color;
  drawColor : Color;
  textColor : Color;
  fontSize : Js.number;
  savedAs : option string
}.

Definition black : Color := rgb 0%float 0%float 0%float.

(** A new document has one blank sheet, which is the current one. *)
Definition blank : Doc := mkDoc [] [] black black black 16%float None.

Definition draw (d : Doc) (it : Item) : Doc :=
  mkDoc (finished d) (current d ++ [it])%list (fillColor d) (drawColor d)
        (textColor d) (fontSize d) (savedAs d).

Definition isFillStyle (style : option string) : bool :=
  match style with
  | Some "F" => true
  | _ => false
  end.

Definition step (d : Doc) (c : Call) : Doc :=
  match c with
  | New _ _ _ => blank
  | SetFillColor c =>
      mkDoc (finished d) (current d) c (drawColor d) (textColor d)
            (fontSize d) (savedAs d)
  | SetDrawColor c =>
      mkDoc (finished d) (current d) (fillColor d) c (textColor d)
            (fontSize d) (savedAs d)
  | SetTextColor c =>
      mkDoc (finished d) (current d) (fillColor d) (drawColor d) c
            (fontSize d) (savedAs d)
  | SetFontSize n =>
      mkDoc (finished d) (current d) (fillColor d) (drawColor d)
            (textColor d) n (savedAs d)
  | Rect x y w h style =>
      if isFillStyle style
      then draw d (FilledRect x y w h (fillColor d))
      else draw d (StrokedRect x y w h (drawColor d))
  | Text s x y align =>
      draw d (TextItem s x y align (fontSize d) (textColor d))
  | AddImage i f x y w h => draw d (ImageItem i f x y w h)
  | AddPage =>
      mkDoc (finished d ++ [current d])%list [] (fillColor d) (drawColor d)
            (textColor d) (fontSize d) (savedAs d)
  | Save f =>
      mkDoc (finished d) (current d) (fillColor d) (drawColor d)
            (textColor d) (fontSize d) (Some f)
  end.

Definition render (calls : list Call) : Doc := fold_left step calls blank.

(** The sheets of a document, in order. *)
Definition sheets (d : Doc) : list (list Item) :=
  (finished d ++ [current d])%list.

Definition isImage (it : Item) : bool :=
  match it with
  | ImageItem _ _ _ _ _ _ => true
  | _ => false
  end.

End JsPDF.

(* ================================================================== *)
(** ** [downloadPDF] (lines 295-355) *)

Definition at0 (t : Js.number * Js.number * Js.number) : Js.number := fst (fst t).
Definition at1 (t : Js.number * Js.number * Js.number) : Js.number := snd (fst t).
Definition at2 (t : Js.number * Js.number * Js.number) : Js.number := snd t.

Section DownloadPDF.

(** [doc.internal.pageSize.getWidth()] and [getHeight()]: the size of an
    A4 sheet in millimetres, as the renderer reports it. *)
Variables pageWidth pageHeight : Js.number.

#[local] Open Scope float_scope.

(** Lines 305-331. *)
Definition coverCalls (st : AppState) : list JsPDF.Call :=
  let bgRgb := hexToRgb (bgColor st) in
  let textRgb := hexToRgb (textColor st) in
  ([ JsPDF.SetFillColor (JsPDF.rgb (at0 bgRgb) (at1 bgRgb) (at2 bgRgb));
     JsPDF.Rect 0 0 pageWidth pageHeight (Some "F"%string);
     JsPDF.SetTextColor (JsPDF.rgb (at0 textRgb) (at1 textRgb) (at2 textRgb));
     JsPDF.SetFontSize 32;
     JsPDF.Text (childName st ++ "'s")%string (pageWidth / 2) 80 "center";
     JsPDF.SetFontSize 48;
     JsPDF.Text "Coloring Book" (pageWidth / 2) 105 "center";
     JsPDF.SetFontSize 18;
     JsPDF.SetTextColor
       (JsPDF.mkColor (at0 textRgb) (at1 textRgb) (at2 textRgb) (Some 0.7));
     JsPDF.Text ("Theme: " ++ theme st)%string (pageWidth / 2) 130 "center" ]
   ++ match pages st with
      | page0 :: _ =>
          [ JsPDF.AddImage (base64 page0) "PNG" (pageWidth / 4) 150
                           (pageWidth / 2) (pageWidth / 2) ]
      | [] => []
      end
   ++ [ JsPDF.SetFontSize 12;
        JsPDF.SetTextColor
          (JsPDF.mkColor (at0 textRgb) (at1 textRgb) (at2 textRgb) (Some 0.5));
        JsPDF.Text "Generated with AI Magic" (pageWidth / 2)
                   (pageHeight - 20) "center" ])%list.

(** The body of the [forEach] callback, lines 335-351. *)
Definition pageCalls (st : AppState) (page : GeneratedPage)
  : list JsPDF.Call :=
  let imgSize := pageWidth - 40 in
  let x := 20 in
  let y := (pageHeight - imgSize) / 2 in
  [ JsPDF.AddPage;
    JsPDF.SetDrawColor (JsPDF.rgb 200 200 200);
    JsPDF.Rect 10 10 (pageWidth - 20) (pageHeight - 20) None;
    JsPDF.AddImage (base64 page) "PNG" x y imgSize imgSize;
    JsPDF.SetFontSize 10;
    JsPDF.SetTextColor (JsPDF.rgb 150 150 150);
    JsPDF.Text ("Page for " ++ childName st)%string (pageWidth / 2)
               (pageHeight - 15) "center" ].

Definition downloadPDF (st : AppState) : list JsPDF.Call :=
  ([ JsPDF.New "portrait" "mm" "a4" ]
   ++ coverCalls st
   ++ flat_map (pageCalls st) (pages st)
   ++ [ JsPDF.Save (childName st ++ "_Coloring_Book.pdf")%string ])%list.

End DownloadPDF.

(** The document the renderer holds when [downloadPDF] returns. *)
Definition assembled (pageWidth pageHeight : Js.number) (st : AppState)
  : JsPDF.Doc :=
  JsPDF.render (downloadPDF pageWidth pageHeight st).

(* ================================================================== *)
(** ** What is rendered (lines 560-664) *)

(** [{isGenerating && ...}] *)
Definition progressPanelRendered (st : AppState) : bool := isGenerating st.

(** [{error && ...}]: the empty string is falsy. *)
Definition errorBannerRendered (st : AppState) : bool :=
  match error st with
  | Some e => negb (isEmptyString e)
  | None => false
  end.

(** [{pages.length > 0 && ...}]: the results section, which holds the
    only control that calls [downloadPDF]. *)
Definition downloadButtonRendered (st : AppState) : bool :=
  (0 <? List.length (pages st))%nat.

(* ================================================================== *)
(** ** The form (lines 202-211 and 396-558) *)

Definition firstTemplate : CoverTemplate :=
  hd (mkTemplate "" "" "" "" "") TEMPLATES.

(** The state [App] is mounted with. *)
Definition initialState : AppState :=
  mkState "" "" 5 (t_bgColor firstTemplate) (t_textColor firstTemplate)
          (t_accentColor firstTemplate) false 0%float [] None.

(** The values offered by the page-count [select] (line 422). *)
Definition pageCountOptions : list nat := [1; 2; 3; 4; 5].

(** What the user can do with the form. *)
Inductive Action : Type :=
| TypeChildName (s : string)
| TypeTheme (s : string)
| SelectPageCount (n : nat)
| ChooseTemplate (t : CoverTemplate)
| PickBgColor (c : string)
| PickTextColor (c : string)
| PickAccentColor (c : string)
| Submit (svc : GenAI.Service).

Definition act (st : AppState) (a : Action) : AppState :=
  match a with
  | TypeChildName s =>
      mkState s (theme st) (pageCount st) (bgColor st) (textColor st)
              (accentColor st) (isGenerating st) (progress st) (pages st)
              (error st)
  | TypeTheme s =>
      mkState (childName st) s (pageCount st) (bgColor st) (textColor st)
              (accentColor st) (isGenerating st) (progress st) (pages st)
              (error st)
  | SelectPageCount n =>
      if existsb (Nat.eqb n) pageCountOptions
      then mkState (childName st) (theme st) n (bgColor st) (textColor st)
                   (accentColor st) (isGenerating st) (progress st) (pages st)
                   (error st)
      else st
  | ChooseTemplate t =>
      mkState (childName st) (theme st) (pageCount st) (t_bgColor t)
              (t_textColor t) (t_accentColor t) (isGenerating st)
              (progress st) (pages st) (error st)
  | PickBgColor c =>
      mkState (childName st) (theme st) (pageCount st) c (textColor st)
              (accentColor st) (isGenerating st) (progress st) (pages st)
              (error st)
  | PickTextColor c =>
      mkState (childName st) (theme st) (pageCount st) (bgColor st) c
              (accentColor st) (isGenerating st) (progress st) (pages st)
              (error st)
  | PickAccentColor c =>
      mkState (childName st) (theme st) (pageCount st) (bgColor st)
              (textColor st) c (isGenerating st) (progress st) (pages st)
              (error st)
  | Submit svc => afterGenerate svc st
  end.

(** The state after a session of user actions. *)
Definition session (actions : list Action) : AppState :=
  fold_left act actions initialState.

(* ================================================================== *)
(** ** Observations on runs *)

(** The requests a trace sends to the image service, in order. *)
Definition requests (tr : Trace) : list GenAI.Request :=
  flat_map (fun ev => match ev with GenerateContent r => [r] | _ => [] end) tr.

(** The values passed to [setProgress], in order. *)
Definition progressUpdates (tr : Trace) : list Js.number :=
  flat_map (fun ev => match ev with SetProgress p => [p] | _ => [] end) tr.

(** The snapshots passed to [setPages], in order. *)
Definition pagesUpdates (tr : Trace) : list (list GeneratedPage) :=
  flat_map (fun ev => match ev with SetPages ps => [ps] | _ => [] end) tr.

(** The values passed to [setError], in order. *)
Definition errorUpdates (tr : Trace) : list (option string) :=
  flat_map (fun ev => match ev with SetError e => [e] | _ => [] end) tr.

(** The values passed to [setIsGenerating], in order. *)
Definition generatingUpdates (tr : Trace) : list bool :=
  flat_map (fun ev => match ev with SetIsGenerating b => [b] | _ => [] end) tr.

(** What the request for page [i] settles to when it is the request
    number [calls] of the run. *)
Definition pageResult (svc : GenAI.Service) (userTheme : string)
    (calls i : nat) : Exn + GeneratedPage :=
  snd (generateSinglePage svc calls i userTheme).

Definition succeeded (r : Exn + GeneratedPage) : bool :=
  match r with
  | inr _ => true
  | inl _ => false
  end.

(** The pages obtained from the requests [i .. i+m-1] that succeeded. *)
Definition collected (svc : GenAI.Service) (userTheme : string)
    (calls i m : nat) : list GeneratedPage :=
  flat_map (fun k => match pageResult svc userTheme (calls + k) (i + k) with
                     | inr p => [p]
                     | inl _ => []
                     end) (seq 0 m).

(** What every run that passes the guard starts with. *)
Definition preamble : Trace :=
  [PreventDefault; SetIsGenerating true; SetProgress 0%float; SetPages [];
   SetError None].

(** What iteration [k] of the loop is seen to do when its request
    succeeds: the request for page [i + k], the snapshot of the pages so
    far, the progress value.  [ps] are the pages the loop generates and
    [newPages] those it started with. *)
Definition iteration (userTheme : string) (count : nat)
    (newPages ps : list GeneratedPage) (i k : nat) : Trace :=
  [ GenerateContent (requestFor (promptFor (i + k) userTheme));
    SetPages (newPages ++ firstn (S k) ps)%list;
    SetProgress (Js.num_of_nat (S (i + k)) / Js.num_of_nat count * 100)%float ].

(** What the failing request for page [i] is seen to do. *)
Definition failure (userTheme : string) (i : nat) (err : Exn) : Trace :=
  [ GenerateContent (requestFor (promptFor i userTheme));
    ConsoleError ("Error generating page " ++ Js.string_of_nat i ++ ":") err ].

(** A run of [handleGenerate] in which the first [m] requests succeed and,
    when [m] is smaller than the page count, request [m] fails. *)
Definition runOf (svc : GenAI.Service) (st : AppState) (m : nat) : Prop :=
  m <= pageCount st /\
  (forall k, k < m -> succeeded (pageResult svc (theme st) k k) = true) /\
  (m < pageCount st -> succeeded (pageResult svc (theme st) m m) = false).

(** The submission passes the guard of line 264. *)
Definition submitted (st : AppState) : Prop :=
  childName st <> "" /\ theme st <> "".

(** The inline payloads of a list of parts, in order. *)
Definition inlinePayloads (ps : list GenAI.Part) : list GenAI.Blob :=
  flat_map (fun p => match GenAI.inlineData p with
                     | Some b => [b]
                     | None => []
                     end) ps.

(** [contains needle s]: [needle] occurs in [s]. *)
Fixpoint contains (needle s : string) : bool :=
  if prefix needle s then true
  else match s with
       | String _ s' => contains needle s'
       | EmptyString => false
       end.

(** The hexadecimal digits and their values. *)
Definition hexDigitTable : list (ascii * Z) :=
  [ ("0"%char, 0%Z); ("1"%char, 1%Z); ("2"%char, 2%Z); ("3"%char, 3%Z);
    ("4"%char, 4%Z); ("5"%char, 5%Z); ("6"%char, 6%Z); ("7"%char, 7%Z);
    ("8"%char, 8%Z); ("9"%char, 9%Z);
    ("a"%char, 10%Z); ("b"%char, 11%Z); ("c"%char, 12%Z); ("d"%char, 13%Z);
    ("e"%char, 14%Z); ("f"%char, 15%Z);
    ("A"%char, 10%Z); ("B"%char, 11%Z); ("C"%char, 12%Z); ("D"%char, 13%Z);
    ("E"%char, 14%Z); ("F"%char, 15%Z) ].

(** A colour string [#rrggbb] spelled with the six given characters. *)
Definition colorString (c1 c2 c3 c4 c5 c6 : ascii) : string :=
  String "#" (String c1 (String c2 (String c3 (String c4 (String c5
    (String c6 EmptyString)))))).

(** The value of a hexadecimal digit, looked up in the table. *)
Definition hexValue (c : ascii) : option Z :=
  option_map snd (find (fun entry => Ascii.eqb (fst entry) c) hexDigitTable).

(** The value of a pair of hexadecimal digits. *)
Definition hexPair (c1 c2 : ascii) : option Z :=
  match hexValue c1, hexValue c2 with
  | Some hi, Some lo => Some (16 * hi + lo)%Z
  | _, _ => None
  end.

(** The three components of a seven-character string [#rrggbb] made of
    hexadecimal digit pairs; [None] for any other string. *)
Definition rgbOf (hex : string) : option (Z * Z * Z) :=
  match hex with
  | String c0 (String c1 (String c2 (String c3 (String c4 (String c5
      (String c6 EmptyString)))))) =>
      if Ascii.eqb c0 "#" then
        match hexPair c1 c2, hexPair c3 c4, hexPair c5 c6 with
        | Some r, Some g, Some b => Some (r, g, b)
        | _, _, _ => None
        end
      else None
  | _ => None
  end.

(* ================================================================== *)
(** ** The specification's own wording, for comparison with the code *)

Module Spec.

(** The five variation templates of section 4.1, by number. *)
Definition variationTemplate (k : nat) (themeText : string) : string :=
  match k with
  | 0 => "A main character " ++ themeText ++ " coloring page"
  | 1 => "A scenic background of " ++ themeText ++ " coloring page"
  | 2 => "An action scene with " ++ themeText ++ " coloring page"
  | 3 => "A close up detail of " ++ themeText ++ " coloring page"
  | _ => "A group of characters in " ++ themeText ++ " coloring page"
  end.

(** The fixed text around the variation clause. *)
Definition outerBefore : string :=
  "Black and white coloring book page for children. Simple line art, thick black outlines, no shading, no gradients, white background. Subject: ".

Definition outerAfter : string := ". High contrast, easy to color.".

(** What section 4.1 asks the outer template to say. *)
Definition outerPhrases : list string :=
  [ "Black and white"; "line art"; "thick black outlines"; "no shading";
    "no gradients"; "white background"; "High contrast"; "easy to color" ].

Section Layout.

Variables pageWidth pageHeight : Js.number.
Variable st : AppState.

#[local] Open Scope float_scope.

Definition titleColor : JsPDF.Color :=
  let t := hexToRgb (textColor st) in JsPDF.rgb (at0 t) (at1 t) (at2 t).

Definition fadedTitleColor (alpha : Js.number) : JsPDF.Color :=
  let t := hexToRgb (textColor st) in
  JsPDF.mkColor (at0 t) (at1 t) (at2 t) (Some alpha).

Definition backgroundColor : JsPDF.Color :=
  let c := hexToRgb (bgColor st) in JsPDF.rgb (at0 c) (at1 c) (at2 c).

(** Cover page layout of section 4.2; [preview] is the image of the
    first generated page, when there is one. *)
Definition coverSheet (preview : option string) : list JsPDF.Item :=
  ([ JsPDF.FilledRect 0 0 pageWidth pageHeight backgroundColor;
     JsPDF.TextItem (childName st ++ "'s")%string (pageWidth / 2) 80
                    "center" 32 titleColor;
     JsPDF.TextItem "Coloring Book" (pageWidth / 2) 105 "center" 48
                    titleColor;
     JsPDF.TextItem ("Theme: " ++ theme st)%string (pageWidth / 2) 130
                    "center" 18 (fadedTitleColor 0.7) ]
   ++ match preview with
      | Some img =>
          [ JsPDF.ImageItem img "PNG" (pageWidth / 4) 150 (pageWidth / 2)
                            (pageWidth / 2) ]
      | None => []
      end
   ++ [ JsPDF.TextItem "Generated with AI Magic" (pageWidth / 2)
                       (pageHeight - 20) "center" 12
                       (fadedTitleColor 0.5) ])%list.

(** Image page layout of section 4.2. *)
Definition imageSheet (page : GeneratedPage) : list JsPDF.Item :=
  [ JsPDF.StrokedRect 10 10 (pageWidth - 20) (pageHeight - 20)
                      (JsPDF.rgb 200 200 200);
    JsPDF.ImageItem (base64 page) "PNG" 20
                    ((pageHeight - (pageWidth - 40)) / 2)
                    (pageWidth - 40) (pageWidth - 40);
    JsPDF.TextItem ("Page for " ++ childName st)%string (pageWidth / 2)
                   (pageHeight - 15) "center" 10 (JsPDF.rgb 150 150 150) ].

End Layout.

(** "No partial document is ever assembled from a failed run": after a
    run whose request [j] failed, no page of the run is left in the
    result and the control that assembles the document is not there. *)
Definition noPartialDocument (svc : GenAI.Service) (st : AppState) : Prop :=
  submitted st ->
  forall j,
    j < pageCount st ->
    (forall k, k < j -> succeeded (pageResult svc (theme st) k k) = true) ->
    succeeded (pageResult svc (theme st) j j) = false ->
    pages (afterGenerate svc st) = []
    /\ downloadButtonRendered (afterGenerate svc st) = false.

End Spec.

(* ================================================================== *)
(** ** Sample data *)

Module Sample.

Definition imagePart (payload : string) : GenAI.Part :=
  GenAI.mkPart None (Some (GenAI.mkBlob (Some payload) (Some "image/png"))).

Definition textPart (t : string) : GenAI.Part := GenAI.mkPart (Some t) None.

Definition responseWith (ps : list GenAI.Part) : GenAI.GenerateContentResponse :=
  GenAI.mkResponse
    (Some [GenAI.mkCandidate (Some (GenAI.mkContent (Some ps)))]).

(** Every request is answered with a caption, an image and a second
    image. *)
Definition alwaysOk : GenAI.Service :=
  fun n _ =>
    GenAI.Resolved
      (responseWith [textPart "here you go";
                     imagePart ("img" ++ Js.string_of_nat n);
                     imagePart "spare"]).

(** As [alwaysOk], but request number [j] is rejected. *)
Definition failingAt (j : nat) : GenAI.Service :=
  fun n req => if (n =? j)%nat then GenAI.Rejected "503" else alwaysOk n req.

(** As [alwaysOk], but request number [j] comes back with text only. *)
Definition textOnlyAt (j : nat) : GenAI.Service :=
  fun n req =>
    if (n =? j)%nat
    then GenAI.Resolved (responseWith [textPart "sorry"])
    else alwaysOk n req.

(** The form filled in for three pages, nothing generated yet. *)
Definition form : AppState :=
  mkState "Aaru" "Space Dinosaurs" 3 "#f5f5f0" "#282828" "#f97316"
          false 0%float [] None.

Definition formWith (nameText themeText : string) (n : nat) : AppState :=
  mkState nameText themeText n "#f5f5f0" "#282828" "#f97316"
          false 0%float [] None.

(** Width and height of an A4 sheet in millimetres. *)
Definition a4Width : Js.number := 210%float.
Definition a4Height : Js.number := 297%float.

End Sample.

(* ================================================================== *)
(** ** More of JavaScript's [Math] *)

Module JsMath.

#[local] Open Scope float_scope.

Definition PI : Js.number := 3.141592653589793.

(** [Math.floor]: finite numbers with a fractional part go down to the
    next integer; integers, zeros, infinities and [NaN] are returned as
    they are. *)
Definition floor (x : Js.number) : Js.number :=
  match Prim2SF x with
  | S754_finite negative m (Zneg k) =>
      let q := Z.shiftr (Zpos m) (Zpos k) in
      if negative
      then if Z.eqb (Z.shiftl q (Zpos k)) (Zpos m)
           then Js.num_of_Z (- q)
           else Js.num_of_Z (- q - 1)
      else Js.num_of_Z q
  | _ => x
  end.

(** [Math.round]: the nearest integer, ties going up; a result of zero
    keeps the sign of [x]. *)
Definition round (x : Js.number) : Js.number :=
  let f := floor x in
  let r := if x - f <? 0.5 then f else f + 1 in
  if (r =? 0) && (x <? 0) then -0 else r.

(** [Math.min] of two numbers: [NaN] if either is; [-0] is below [+0]. *)
Definition min (a b : Js.number) : Js.number :=
  if is_nan a || is_nan b then Js.NaN
  else if a <? b then a
  else if b <? a then b
  else if 1 / a <? 0 then a else b.

End JsMath.

(** [xs[idx]] for a number [idx]: the element whose position equals
    [idx], [None] (that is, [undefined]) when there is none.  [k] is the
    position of the head of [xs]. *)
Fixpoint elementAt {A : Type} (xs : list A) (k : nat) (idx : Js.number)
  : option A :=
  match xs with
  | [] => None
  | x :: rest =>
      if (Js.num_of_nat k =? idx)%float then Some x
      else elementAt rest (S k) idx
  end.

(* ================================================================== *)
(** ** The rest of what [App] renders *)

Definition PRESET_THEMES : list string :=
  [ "Barbie"; "Peppa Pig"; "Mowgli"; "Like Nastya"; "Paw Patrol"; "Frozen";
    "Spider-Man"; "Bluey"; "Cocomelon"; "Pokémon" ].

(** The page number in "Drawing page ... of ..." (line 570). *)
Definition drawingPageNumber (st : AppState) : Js.number :=
  JsMath.min
    (JsMath.floor (progress st / (100 / Js.num_of_nat (pageCount st))) + 1)%float
    (Js.num_of_nat (pageCount st)).

(** The percentage next to it (line 571). *)
Definition percentShown (st : AppState) : Js.number :=
  JsMath.round (progress st).

(** A preset theme button is highlighted (line 449). *)
Definition themeHighlighted (st : AppState) (preset : string) : bool :=
  String.eqb (theme st) preset.

(** A cover template button has the highlighted border (line 484). *)
Definition templateHighlighted (st : AppState) (t : CoverTemplate) : bool :=
  String.eqb (bgColor st) (t_bgColor t)
  && String.eqb (textColor st) (t_textColor t).

(** Its label is highlighted (line 490). *)
Definition templateLabelHighlighted (st : AppState) (t : CoverTemplate)
  : bool :=
  String.eqb (bgColor st) (t_bgColor t).

(** The submit button is disabled (line 542). *)
Definition submitDisabled (st : AppState) : bool := isGenerating st.

(** The states the component is rendered in while a request is pending:
    the state reached just before each [GenerateContent] of a trace. *)
Fixpoint statesAtRequests (st : AppState) (tr : Trace) : list AppState :=
  match tr with
  | [] => []
  | ev :: rest =>
      (match ev with
       | GenerateContent _ => [st]
       | _ => []
       end ++ statesAtRequests (applyEvent st ev) rest)%list
  end.


(* ================================================================== *)
(** ** [FireworksBackground] (lines 82-186) *)

Module Fireworks.

#[local] Open Scope float_scope.

(** What the animation takes from its environment: the values returned
    by successive calls of [Math.random], and [Math.cos] and
    [Math.sin]. *)
Record Env : Type := mkEnv {
  random : nat -> Js.number;
  cos : Js.number -> Js.number;
  sin : Js.number -> Js.number
}.

(** The class [Particle] (lines 102-143). *)
Record Particle : Type := mkParticle {
  x : Js.number;
  y : Js.number;
  vx : Js.number;
  vy : Js.number;
  alpha : Js.number;
  color : option string;
  gravity : Js.number;
  friction : Js.number
}.

(** The calls made on the 2D context. *)
Inductive CanvasOp : Type :=
| ClearRect (x0 y0 w h : Js.number)
| Save
| SetGlobalAlpha (a : Js.number)
| SetFillStyle (c : option string)
| BeginPath
| Arc (cx cy r startAngle endAngle : Js.number)
| Fill
| Restore.

(** The constructor; [used] counts the calls of [Math.random] so far. *)
Definition newParticle (env : Env) (used : nat) (x0 y0 : Js.number)
    (c : option string) : Particle * nat :=
  let angle := random env used * JsMath.PI * 2 in
  let speed := random env (S used) * 3 + 1 in
  (mkParticle x0 y0 (cos env angle * speed) (sin env angle * speed) 1 c
              0.05 0.98,
   S (S used)).

Definition update (p : Particle) : Particle :=
  let vx' := vx p * friction p in
  let vy' := vy p * friction p + gravity p in
  mkParticle (x p + vx') (y p + vy') vx' vy' (alpha p - 0.01) (color p)
             (gravity p) (friction p).

Definition draw (p : Particle) : list CanvasOp :=
  [ Save; SetGlobalAlpha (alpha p); SetFillStyle (color p); BeginPath;
    Arc (x p) (y p) 1.5 0 (JsMath.PI * 2); Fill; Restore ].

Definition colors : list string :=
  [ "#FF6B6B"; "#4ECDC4"; "#FFE66D"; "#FF9F43"; "#A29BFE" ].

(** The [for] loop of [createFirework] with [todo] iterations to go. *)
Fixpoint pushParticles (env : Env) (todo : nat) (used : nat)
    (x0 y0 : Js.number) (c : option string) (particles : list Particle)
  : list Particle * nat :=
  match todo with
  | O => (particles, used)
  | S todo' =>
      let '(p, used') := newParticle env used x0 y0 c in
      pushParticles env todo' used' x0 y0 c (particles ++ [p])%list
  end.

Definition createFirework (env : Env) (width height : Js.number)
    (used : nat) (particles : list Particle) : list Particle * nat :=
  let x0 := random env used * width in
  let y0 := random env (S used) * (height * 0.5) in
  let c :=
    elementAt colors 0
      (JsMath.floor (random env (S (S used))
                     * Js.num_of_nat (List.length colors))) in
  pushParticles env 30 (S (S (S used))) x0 y0 c particles.

(** The animation state between two frames. *)
Record Scene : Type := mkScene {
  particles : list Particle;
  used : nat
}.

(** One call of [render] on a canvas of the given size: the next scene
    and the calls made on the context. *)
Definition render (env : Env) (width height : Js.number) (s : Scene)
  : Scene * list CanvasOp :=
  let '(ps, used') :=
    if random env (used s) <? 0.02
    then createFirework env width height (S (used s)) (particles s)
    else (particles s, S (used s)) in
  let alive := filter (fun p => 0 <? alpha p) ps in
  let moved := map update alive in
  (mkScene moved used',
   (ClearRect 0 0 width height :: flat_map draw moved)%list).

(** The scene after the frames whose canvas sizes are listed, starting
    from the empty scene the effect sets up. *)
Definition animate (env : Env) (sizes : list (Js.number * Js.number))
  : Scene :=
  fold_left (fun s size => fst (render env (fst size) (snd size) s)) sizes
            (mkScene [] 0).

(** The [alpha] of a particle that has been updated [n] times. *)
Fixpoint alphaAfter (n : nat) : Js.number :=
  match n with
  | O => 1
  | S k => alphaAfter k - 0.01
  end.

(** Every particle of the list, counted from the end, is old enough:
    the one with [d] particles from it to the end has been updated at
    least [d / 30] times (rounded up) and at most [limit] times. *)
Fixpoint aged (lo limit : nat) (ps : list Particle) : Prop :=
  match ps with
  | [] => True
  | p :: rest =>
      (exists n, alpha p = alphaAfter n /\ lo <= n <= limit
                 /\ S (List.length rest) <= 30 * (n + 1 - lo))
      /\ aged lo limit rest
  end.

End Fireworks.

(* ================================================================== *)
(** ** One click on the download button *)

(** What surrounds an invocation of [downloadPDF]: the random numbers
    and functions of [Math], how many random numbers have been used, and
    the document an earlier invocation has left in the renderer. *)
Record Browser : Type := mkBrowser {
  math : Fireworks.Env;
  randomUsed : nat;
  document : JsPDF.Doc
}.

(** The renderer's sheet sizes: what [doc.internal.pageSize] reports
    for a document created with the given orientation, unit and format. *)
Definition SheetSizes : Type :=
  string -> string -> string -> Js.number * Js.number.

(** [downloadPDF] run in a browser: lines 296-303 read the size of the
    sheet of the document they create, the calls go to the renderer as it
    is, and [Math.random] is not called. *)
Definition clickDownload (sizes : SheetSizes) (st : AppState) (b : Browser)
  : Browser :=
  let size := sizes "portrait" "mm" "a4" in
  mkBrowser (math b) (randomUsed b)
            (fold_left JsPDF.step (downloadPDF (fst size) (snd size) st)
                       (document b)).


(* ================================================================== *)
(** ** What holds of every state the component can reach *)

Definition isDataUrl (s : string) : bool := prefix "data:image/png;base64," s.

(** The pages are numbered from 0 in order, there are at most five, each
    image is a PNG data URL, all prompts were built for one theme, no run
    is in progress, and the error is absent or the fixed message. *)
Definition wellFormed (st : AppState) : Prop :=
  map id (pages st) = seq 0 (List.length (pages st))
  /\ List.length (pages st) <= 5
  /\ Forall (fun p => isDataUrl (base64 p) = true) (pages st)
  /\ (exists themeText,
        Forall (fun p => prompt p = promptFor (id p) themeText) (pages st))
  /\ isGenerating st = false
  /\ (error st = None \/ error st = Some errorMessage)
  /\ 1 <= pageCount st <= 5.

(** The state the component shows while the request for page [k] of a
    run is pending, [ps] being the pages the run generates. *)
Definition pendingState (st : AppState) (ps : list GeneratedPage) (k : nat)
  : AppState :=
  mkState (childName st) (theme st) (pageCount st) (bgColor st)
          (textColor st) (accentColor st) true
          match k with
          | 0 => 0%float
          | S _ => (Js.num_of_nat k / Js.num_of_nat (pageCount st) * 100)%float
          end
          (firstn k ps) None.

(** A call that saves the document. *)
Definition isSave (c : JsPDF.Call) : bool :=
  match c with
  | JsPDF.Save _ => true
  | _ => false
  end.

(** A call that starts a new sheet. *)
Definition isAddPage (c : JsPDF.Call) : bool :=
  match c with
  | JsPDF.AddPage => true
  | _ => false
  end.

(* ================================================================== *)
(** * Properties *)

(** ** Colours *)

Lemma hexDigit_table (c : ascii) (v : Z) :
  Js.hexDigit c = Some v -> In (c, v) hexDigitTable.
Proof.
  destruct c as [[] [] [] [] [] [] [] []]; vm_compute; intro H;
    try discriminate H; injection H as <-; tauto.
Qed.

(** The digit values [parseInt] uses are those of the table. *)
Lemma hexDigit_hexValue (c : ascii) : Js.hexDigit c = hexValue c.
Proof. destruct c as [[] [] [] [] [] [] [] []]; vm_compute; reflexivity. Qed.

Lemma parseInt16_pair (c1 c2 : ascii) (v1 v2 : Z) :
  Js.hexDigit c1 = Some v1 ->
  Js.hexDigit c2 = Some v2 ->
  Js.parseInt16 (String c1 (String c2 EmptyString)) = Js.num_of_Z (16 * v1 + v2)
  /\ (0 <= 16 * v1 + v2 <= 255)%Z.
Proof.
  intros H1 H2.
  apply hexDigit_table in H1. apply hexDigit_table in H2.
  unfold hexDigitTable in H1, H2. cbn [In] in H1, H2.
  repeat (destruct H1 as [H1 | H1]; [injection H1 as <- <- | ]);
    try contradiction;
    repeat (destruct H2 as [H2 | H2]; [injection H2 as <- <- | ]);
    try contradiction;
    (split; [vm_compute; reflexivity | lia]).
Qed.

Lemma hexToRgb_colorString (c1 c2 c3 c4 c5 c6 : ascii) (v1 v2 v3 v4 v5 v6 : Z) :
  Js.hexDigit c1 = Some v1 -> Js.hexDigit c2 = Some v2 ->
  Js.hexDigit c3 = Some v3 -> Js.hexDigit c4 = Some v4 ->
  Js.hexDigit c5 = Some v5 -> Js.hexDigit c6 = Some v6 ->
  hexToRgb (colorString c1 c2 c3 c4 c5 c6)
  = (Js.num_of_Z (16 * v1 + v2), Js.num_of_Z (16 * v3 + v4),
     Js.num_of_Z (16 * v5 + v6)).
Proof.
  intros H1 H2 H3 H4 H5 H6.
  unfold hexToRgb, colorString, Js.slice. cbn [substring Nat.sub].
  rewrite (proj1 (parseInt16_pair c1 c2 v1 v2 H1 H2)).
  rewrite (proj1 (parseInt16_pair c3 c4 v3 v4 H3 H4)).
  rewrite (proj1 (parseInt16_pair c5 c6 v5 v6 H5 H6)).
  reflexivity.
Qed.

(** ** Prompts *)

Lemma promptFor_unfold (i : nat) (themeText : string) :
  promptFor i themeText
  = Spec.outerBefore ++ Spec.variationTemplate (i mod 5) themeText
      ++ Spec.outerAfter.
Proof.
  unfold promptFor, Spec.outerBefore, Spec.outerAfter.
  cbn [variations List.length].
  pose proof (Nat.mod_upper_bound i 5 ltac:(discriminate)) as Hlt.
  destruct (i mod 5) as [|[|[|[|[|k]]]]]; try reflexivity; lia.
Qed.

Lemma generateSinglePage_request (svc : GenAI.Service) (calls i : nat)
    (themeText : string) :
  requests (fst (generateSinglePage svc calls i themeText))
  = [requestFor (promptFor i themeText)].
Proof.
  unfold generateSinglePage.
  destruct (svc calls (requestFor (promptFor i themeText))) as [reason|response].
  - reflexivity.
  - destruct (isEmptyString _); reflexivity.
Qed.

(** C2: the prompt sent for page [i] is the fixed outer text around the
    variation template number [i mod 5] with the theme inserted as it is;
    the outer text names the eight required properties of the drawing, and
    indices that differ by five (in particular 5 and 0) get the same
    prompt. *)
Theorem C2_prompt_is_outer_template_with_variation_mod_5 :
  forall (svc : GenAI.Service) (calls i : nat) (themeText : string),
    promptFor i themeText
    = Spec.outerBefore ++ Spec.variationTemplate (i mod 5) themeText
        ++ Spec.outerAfter
    /\ map GenAI.contents_text
           (requests (fst (generateSinglePage svc calls i themeText)))
       = [promptFor i themeText]
    /\ forallb (fun ph => contains ph Spec.outerBefore
                          || contains ph Spec.outerAfter)
               Spec.outerPhrases = true
    /\ Spec.variationTemplate (0 mod 5) "Dinosaurs"
       = "A main character Dinosaurs coloring page"
    /\ Spec.variationTemplate (5 mod 5) themeText
       = Spec.variationTemplate (0 mod 5) themeText
    /\ promptFor 5 themeText = promptFor 0 themeText
    /\ promptFor (i + 5) themeText = promptFor i themeText.
Proof.
  intros svc calls i themeText.
  split; [apply promptFor_unfold|].
  split; [rewrite generateSinglePage_request; reflexivity|].
  split; [vm_compute; reflexivity|].
  split; [reflexivity|].
  split; [reflexivity|].
  split; [reflexivity|].
  rewrite !promptFor_unfold.
  replace ((i + 5) mod 5) with (i mod 5); [reflexivity|].
  rewrite <- (Nat.Div0.mod_add i 1 5). f_equal.
Qed.

(** ** Result extraction *)

Lemma scanParts_first (ps : list GenAI.Part) (acc : string) :
  scanParts ps acc
  = match hd_error (inlinePayloads ps) with
    | Some blob => "data:image/png;base64," ++ interpolate (GenAI.data blob)
    | None => acc
    end.
Proof.
  induction ps as [|part rest IH]; [reflexivity|].
  unfold inlinePayloads in *. cbn [scanParts flat_map].
  destruct (GenAI.inlineData part) as [blob|]; [reflexivity|].
  cbn [app]. exact IH.
Qed.

Lemma inlinePayloads_app (xs ys : list GenAI.Part) :
  inlinePayloads (xs ++ ys)%list = (inlinePayloads xs ++ inlinePayloads ys)%list.
Proof. unfold inlinePayloads. apply flat_map_app. Qed.

Lemma no_inline_payloads (ps : list GenAI.Part) :
  Forall (fun p => GenAI.inlineData p = None) ps -> inlinePayloads ps = [].
Proof.
  unfold inlinePayloads. induction 1 as [|p ps Hp _ IH]; [reflexivity|].
  cbn [flat_map]. now rewrite Hp, IH.
Qed.

(** C6: when the call resolves with a response whose (first) candidate
    lists the parts [before ++ part :: after], no part of [before] has
    inline data and [part] carries the inline payload [payload], the page
    image is ["data:image/png;base64," ++ payload], whatever parts, with or
    without payloads, come in [after] (and the text [undefined] stands for
    a payload without data); when no part of the response has inline
    data, the request fails with the "no image data" error. *)
Theorem C6_first_inline_payload_or_failure :
  forall (svc : GenAI.Service) (calls i : nat) (themeText : string),
    (forall (others : list GenAI.Candidate) (before after : list GenAI.Part)
            (caption mime : option string) (payload : string),
       svc calls (requestFor (promptFor i themeText))
       = GenAI.Resolved
           (GenAI.mkResponse
              (Some (GenAI.mkCandidate
                       (Some (GenAI.mkContent
                                (Some (before
                                       ++ GenAI.mkPart caption
                                            (Some (GenAI.mkBlob (Some payload) mime))
                                          :: after)%list)))
                     :: others))) ->
       Forall (fun p => GenAI.inlineData p = None) before ->
       pageResult svc themeText calls i
       = inr (mkPage i ("data:image/png;base64," ++ payload)
                     (promptFor i themeText)))
    /\ (forall (others : list GenAI.Candidate) (before after : list GenAI.Part)
               (caption mime : option string),
          svc calls (requestFor (promptFor i themeText))
          = GenAI.Resolved
              (GenAI.mkResponse
                 (Some (GenAI.mkCandidate
                          (Some (GenAI.mkContent
                                   (Some (before
                                          ++ GenAI.mkPart caption
                                               (Some (GenAI.mkBlob None mime))
                                             :: after)%list)))
                        :: others))) ->
          Forall (fun p => GenAI.inlineData p = None) before ->
          pageResult svc themeText calls i
          = inr (mkPage i "data:image/png;base64,undefined"
                        (promptFor i themeText)))
    /\ (forall (others : list GenAI.Candidate) (ps : list GenAI.Part),
          svc calls (requestFor (promptFor i themeText))
          = GenAI.Resolved
              (GenAI.mkResponse
                 (Some (GenAI.mkCandidate (Some (GenAI.mkContent (Some ps)))
                        :: others))) ->
          Forall (fun p => GenAI.inlineData p = None) ps ->
          pageResult svc themeText calls i
          = inl (JsError "No image data received from AI")).
Proof.
  intros svc calls i themeText. split; [|split].
  - intros others before after caption mime payload Hsvc Hbefore.
    unfold pageResult, generateSinglePage. rewrite Hsvc.
    cbn [responseParts GenAI.candidates GenAI.content GenAI.parts].
    rewrite scanParts_first, inlinePayloads_app,
      (no_inline_payloads before Hbefore).
    reflexivity.
  - intros others before after caption mime Hsvc Hbefore.
    unfold pageResult, generateSinglePage. rewrite Hsvc.
    cbn [responseParts GenAI.candidates GenAI.content GenAI.parts].
    rewrite scanParts_first, inlinePayloads_app,
      (no_inline_payloads before Hbefore).
    reflexivity.
  - intros others ps Hsvc Hnone.
    unfold pageResult, generateSinglePage. rewrite Hsvc.
    cbn [responseParts GenAI.candidates GenAI.content GenAI.parts].
    rewrite scanParts_first, (no_inline_payloads ps Hnone).
    reflexivity.
Qed.

Lemma C6_witness :
  pageResult Sample.alwaysOk "Bluey" 0 0
  = inr (mkPage 0 "data:image/png;base64,img0" (promptFor 0 "Bluey"))
  /\ pageResult (Sample.textOnlyAt 0) "Bluey" 0 0
     = inl (JsError "No image data received from AI").
Proof.
  split.
  - apply (proj1 (C6_first_inline_payload_or_failure
                    Sample.alwaysOk 0 0 "Bluey")
                 [] [Sample.textPart "here you go"] [Sample.imagePart "spare"]
                 None (Some "image/png") "img0");
      [reflexivity | repeat constructor].
  - apply (proj2 (proj2 (C6_first_inline_payload_or_failure
                           (Sample.textOnlyAt 0) 0 0 "Bluey"))
                 [] [Sample.textPart "sorry"]);
      [reflexivity | repeat constructor].
Defined.

(** Read on the list of parts: what follows the first inline payload
    never changes the page. *)
Lemma later_parts_are_discarded (before after after' : list GenAI.Part)
    (part : GenAI.Part) (blob : GenAI.Blob) (acc : string) :
  inlinePayloads before = [] ->
  GenAI.inlineData part = Some blob ->
  scanParts (before ++ part :: after)%list acc
  = "data:image/png;base64," ++ interpolate (GenAI.data blob)
  /\ scanParts (before ++ part :: after)%list acc
     = scanParts (before ++ part :: after')%list acc.
Proof.
  intros Hb Hp.
  rewrite !scanParts_first, !inlinePayloads_app, Hb.
  unfold inlinePayloads. cbn [flat_map app]. rewrite Hp. cbn [app hd_error].
  split; reflexivity.
Qed.

(** ** Assembly *)

Section Assembly.

Variables pageWidth pageHeight : Js.number.

Lemma render_pageCalls (st : AppState) (page : GeneratedPage) (d : JsPDF.Doc) :
  JsPDF.sheets (fold_left JsPDF.step (pageCalls pageWidth pageHeight st page) d)
  = (JsPDF.sheets d ++ [Spec.imageSheet pageWidth pageHeight st page])%list.
Proof. unfold JsPDF.sheets. cbn. reflexivity. Qed.

Lemma render_all_pageCalls (st : AppState) (ps : list GeneratedPage) :
  forall d : JsPDF.Doc,
    JsPDF.sheets
      (fold_left JsPDF.step (flat_map (pageCalls pageWidth pageHeight st) ps) d)
    = (JsPDF.sheets d ++ map (Spec.imageSheet pageWidth pageHeight st) ps)%list.
Proof.
  induction ps as [|page rest IH]; intro d.
  - cbn [flat_map fold_left map]. now rewrite app_nil_r.
  - cbn [flat_map map]. rewrite fold_left_app, IH, render_pageCalls.
    now rewrite <- app_assoc.
Qed.

Lemma render_cover (st : AppState) :
  JsPDF.sheets
    (fold_left JsPDF.step
       (JsPDF.New "portrait" "mm" "a4" :: coverCalls pageWidth pageHeight st)
       JsPDF.blank)
  = [Spec.coverSheet pageWidth pageHeight st
       (option_map base64 (hd_error (pages st)))].
Proof.
  unfold coverCalls, Spec.coverSheet, JsPDF.sheets.
  destruct (pages st) as [|page0 rest]; reflexivity.
Qed.

Lemma sheets_save (d : JsPDF.Doc) (f : string) :
  JsPDF.sheets (JsPDF.step d (JsPDF.Save f)) = JsPDF.sheets d.
Proof. reflexivity. Qed.

(** The sheets of the assembled document: the cover, then one image
    sheet per page, in the order of [pages]. *)
Lemma sheets_assembled (st : AppState) :
  JsPDF.sheets (assembled pageWidth pageHeight st)
  = Spec.coverSheet pageWidth pageHeight st
      (option_map base64 (hd_error (pages st)))
    :: map (Spec.imageSheet pageWidth pageHeight st) (pages st).
Proof.
  unfold assembled, JsPDF.render, downloadPDF.
  change ([JsPDF.New "portrait" "mm" "a4"] ++ ?l)%list
    with (JsPDF.New "portrait" "mm" "a4" :: l).
  rewrite app_comm_cons, !fold_left_app.
  change (fold_left JsPDF.step [JsPDF.Save ?f] ?d)
    with (JsPDF.step d (JsPDF.Save f)).
  rewrite sheets_save, render_all_pageCalls, render_cover.
  reflexivity.
Qed.

Lemma images_of_coverSheet (st : AppState) (preview : option string) :
  filter JsPDF.isImage (Spec.coverSheet pageWidth pageHeight st preview)
  = match preview with
    | Some img =>
        [JsPDF.ImageItem img "PNG" (pageWidth / 4)%float 150%float
                         (pageWidth / 2)%float (pageWidth / 2)%float]
    | None => []
    end.
Proof. destruct preview; reflexivity. Qed.

Lemma images_of_imageSheets (st : AppState) (ps : list GeneratedPage) :
  map (filter JsPDF.isImage) (map (Spec.imageSheet pageWidth pageHeight st) ps)
  = map (fun page =>
           [JsPDF.ImageItem (base64 page) "PNG" 20%float
              ((pageHeight - (pageWidth - 40)) / 2)%float
              (pageWidth - 40)%float (pageWidth - 40)%float]) ps.
Proof. rewrite map_map. apply map_ext. reflexivity. Qed.

End Assembly.

(** C7: the assembled document has [length pages + 1] sheets: first the
    cover, then one image sheet per entry of [pages], in the order of
    [pages]; the cover is there also for an empty [pages], and then it
    holds no image; every image sheet holds exactly the image of its own
    entry, so there is no image sheet for an index outside [pages]. *)
Theorem C7_cover_then_one_sheet_per_page :
  forall (pageWidth pageHeight : Js.number) (st : AppState),
    let doc := assembled pageWidth pageHeight st in
    List.length (JsPDF.sheets doc) = List.length (pages st) + 1
    /\ JsPDF.sheets doc
       = Spec.coverSheet pageWidth pageHeight st
           (option_map base64 (hd_error (pages st)))
         :: map (Spec.imageSheet pageWidth pageHeight st) (pages st)
    /\ filter JsPDF.isImage (hd [] (JsPDF.sheets doc))
       = match pages st with
         | [] => []
         | page0 :: _ =>
             [JsPDF.ImageItem (base64 page0) "PNG" (pageWidth / 4)%float
                150%float (pageWidth / 2)%float (pageWidth / 2)%float]
         end
    /\ map (filter JsPDF.isImage) (tl (JsPDF.sheets doc))
       = map (fun page =>
                [JsPDF.ImageItem (base64 page) "PNG" 20%float
                   ((pageHeight - (pageWidth - 40)) / 2)%float
                   (pageWidth - 40)%float (pageWidth - 40)%float])
             (pages st).
Proof.
  intros pageWidth pageHeight st doc. subst doc.
  rewrite sheets_assembled. cbn [List.length hd tl].
  rewrite length_map, images_of_coverSheet, images_of_imageSheets.
  repeat split; [lia|].
  destruct (pages st); reflexivity.
Qed.

(** C8: two invocations of the assembler on the same pages and the same
    cover style (the two colours, the recipient name, the theme) produce
    the same document: the same calls, with the same texts, images and
    positions.  This holds whatever else differs between the invocations:
    the rest of the component state, the random numbers available, and
    the document left in the renderer by an earlier invocation.  Each
    invocation reads the sheet size from the document it creates, and
    uses no random number. *)
Theorem C8_assembly_depends_only_on_pages_and_style :
  forall (sizes : SheetSizes) (st1 st2 : AppState) (b1 b2 : Browser),
    pages st1 = pages st2 ->
    bgColor st1 = bgColor st2 ->
    textColor st1 = textColor st2 ->
    childName st1 = childName st2 ->
    theme st1 = theme st2 ->
    let width := fst (sizes "portrait" "mm" "a4") in
    let height := snd (sizes "portrait" "mm" "a4") in
    document (clickDownload sizes st1 b1) = document (clickDownload sizes st2 b2)
    /\ document (clickDownload sizes st1 b1) = assembled width height st1
    /\ JsPDF.sheets (document (clickDownload sizes st2 b2))
       = Spec.coverSheet width height st1
           (option_map base64 (hd_error (pages st1)))
         :: map (Spec.imageSheet width height st1) (pages st1)
    /\ downloadPDF width height st1 = downloadPDF width height st2
    /\ randomUsed (clickDownload sizes st1 b1) = randomUsed b1
    /\ randomUsed (clickDownload sizes st2 b2) = randomUsed b2.
Proof.
  intros sizes st1 st2 b1 b2 Hp Hb Ht Hn Hth width height.
  assert (downloadPDF width height st1 = downloadPDF width height st2) as Heq.
  { unfold downloadPDF, coverCalls, pageCalls.
    rewrite Hp, Hb, Ht, Hn, Hth. reflexivity. }
  assert (forall st b,
            document (clickDownload sizes st b) = assembled width height st)
    as Hfresh by reflexivity.
  assert (assembled width height st2 = assembled width height st1) as Hdoc
    by (unfold assembled; now rewrite Heq).
  rewrite !Hfresh, Hdoc, sheets_assembled.
  repeat split. exact Heq.
Qed.

Lemma C8_witness :
  let twoPages := [mkPage 0 "a" "first"; mkPage 1 "b" "second"] in
  let st1 := mkState "Aaru" "Bluey" 2 "#f5f5f0" "#282828" "#f97316"
                     false 100%float twoPages None in
  let st2 := mkState "Aaru" "Bluey" 5 "#f5f5f0" "#282828" "#0ea5e9"
                     true 40%float twoPages (Some errorMessage) in
  let sizes : SheetSizes := fun _ _ _ => (210%float, 297%float) in
  let b1 := mkBrowser (Fireworks.mkEnv (fun _ => 0.25%float) (fun a => a)
                                       (fun a => a)) 0 JsPDF.blank in
  let b2 := mkBrowser (Fireworks.mkEnv (fun _ => 0.75%float) (fun a => a)
                                       (fun a => a)) 64
                      (assembled 210%float 297%float Sample.form) in
  document (clickDownload sizes st1 b1) = document (clickDownload sizes st2 b2)
  /\ map (filter JsPDF.isImage)
         (JsPDF.sheets (document (clickDownload sizes st2 b2)))
     = [ [JsPDF.ImageItem "a" "PNG" 52.5%float 150%float 105%float 105%float];
         [JsPDF.ImageItem "a" "PNG" 20%float 63.5%float 170%float 170%float];
         [JsPDF.ImageItem "b" "PNG" 20%float 63.5%float 170%float 170%float] ].
Proof.
  cbv zeta.
  pose proof (C8_assembly_depends_only_on_pages_and_style
                (fun _ _ _ => (210%float, 297%float))
                (mkState "Aaru" "Bluey" 2 "#f5f5f0" "#282828" "#f97316"
                         false 100%float
                         [mkPage 0 "a" "first"; mkPage 1 "b" "second"] None)
                (mkState "Aaru" "Bluey" 5 "#f5f5f0" "#282828" "#0ea5e9"
                         true 40%float
                         [mkPage 0 "a" "first"; mkPage 1 "b" "second"]
                         (Some errorMessage))
                (mkBrowser (Fireworks.mkEnv (fun _ => 0.25%float) (fun a => a)
                                            (fun a => a)) 0 JsPDF.blank)
                (mkBrowser (Fireworks.mkEnv (fun _ => 0.75%float) (fun a => a)
                                            (fun a => a)) 64
                           (assembled 210%float 297%float Sample.form))
                eq_refl eq_refl eq_refl eq_refl eq_refl) as H.
  cbv zeta in H. destruct H as (Hsame & _ & Hsheets & _).
  split; [exact Hsame|].
  rewrite Hsheets. reflexivity.
Defined.

(** ** Colours on the cover *)

Lemma rgbOf_inv (hex : string) (r g b : Z) :
  rgbOf hex = Some (r, g, b) ->
  exists c1 c2 c3 c4 c5 c6 v1 v2 v3 v4 v5 v6,
    hex = colorString c1 c2 c3 c4 c5 c6
    /\ Js.hexDigit c1 = Some v1 /\ Js.hexDigit c2 = Some v2
    /\ Js.hexDigit c3 = Some v3 /\ Js.hexDigit c4 = Some v4
    /\ Js.hexDigit c5 = Some v5 /\ Js.hexDigit c6 = Some v6
    /\ r = (16 * v1 + v2)%Z /\ g = (16 * v3 + v4)%Z /\ b = (16 * v5 + v6)%Z.
Proof.
  unfold rgbOf, hexPair.
  destruct hex as [|c0 [|c1 [|c2 [|c3 [|c4 [|c5 [|c6 [|c7 tl]]]]]]]];
    try discriminate.
  destruct (Ascii.eqb c0 "#") eqn:E0; [|discriminate].
  apply Ascii.eqb_eq in E0. subst c0.
  rewrite <- !hexDigit_hexValue.
  destruct (Js.hexDigit c1) as [v1|] eqn:E1; [|discriminate].
  destruct (Js.hexDigit c2) as [v2|] eqn:E2; [|discriminate].
  destruct (Js.hexDigit c3) as [v3|] eqn:E3;
    [|destruct (Js.hexDigit c4); discriminate].
  destruct (Js.hexDigit c4) as [v4|] eqn:E4; [|discriminate].
  destruct (Js.hexDigit c5) as [v5|] eqn:E5;
    [|destruct (Js.hexDigit c6); discriminate].
  destruct (Js.hexDigit c6) as [v6|] eqn:E6; [|discriminate].
  intro H. injection H as <- <- <-.
  exists c1, c2, c3, c4, c5, c6, v1, v2, v3, v4, v5, v6.
  repeat split; reflexivity || assumption.
Qed.

Lemma hexToRgb_rgbOf (hex : string) (r g b : Z) :
  rgbOf hex = Some (r, g, b) ->
  hexToRgb hex = (Js.num_of_Z r, Js.num_of_Z g, Js.num_of_Z b)
  /\ (0 <= r <= 255)%Z /\ (0 <= g <= 255)%Z /\ (0 <= b <= 255)%Z.
Proof.
  intro H. apply rgbOf_inv in H.
  destruct H as (c1 & c2 & c3 & c4 & c5 & c6 & v1 & v2 & v3 & v4 & v5 & v6
                 & -> & H1 & H2 & H3 & H4 & H5 & H6 & -> & -> & ->).
  split; [now apply hexToRgb_colorString|].
  pose proof (proj2 (parseInt16_pair _ _ _ _ H1 H2)).
  pose proof (proj2 (parseInt16_pair _ _ _ _ H3 H4)).
  pose proof (proj2 (parseInt16_pair _ _ _ _ H5 H6)).
  auto.
Qed.

(** The integers 0 to 255 as numbers: the conversion used by the model
    of [parseInt] agrees with the library's conversion of machine
    integers. *)
Lemma num_of_Z_byte (r : Z) :
  (0 <= r <= 255)%Z -> Js.num_of_Z r = PrimFloat.of_uint63 (Uint63.of_Z r).
Proof.
  intro H.
  assert (exists n, r = Z.of_nat n /\ n < 256) as (n & -> & Hn).
  { exists (Z.to_nat r). split; [now rewrite Z2Nat.id|].
    apply Nat2Z.inj_lt. rewrite Z2Nat.id by apply H.
    apply Z.le_lt_trans with (m := 255%Z); [apply H | reflexivity]. }
  clear H.
  do 256 (destruct n as [|n];
          [vm_compute; reflexivity | apply PeanoNat.lt_S_n in Hn]).
  inversion Hn.
Qed.

(** C10: on a string [#rrggbb] of hexadecimal digit pairs [hexToRgb]
    returns the three numbers whose values are its components, each an
    integer between 0 and 255; in the assembled document the cover starts
    with a rectangle over the whole sheet filled with the components of
    [bgColor], followed by the two title lines written with the
    components of [textColor]. *)
Theorem C10_cover_colours_are_the_chosen_components :
  forall (pageWidth pageHeight : Js.number) (st : AppState)
         (r g b r' g' b' : Z),
    rgbOf (bgColor st) = Some (r, g, b) ->
    rgbOf (textColor st) = Some (r', g', b') ->
    let num (v : Z) : Js.number := PrimFloat.of_uint63 (Uint63.of_Z v) in
    hexToRgb (bgColor st) = (num r, num g, num b)
    /\ hexToRgb (textColor st) = (num r', num g', num b')
    /\ ((0 <= r <= 255) /\ (0 <= g <= 255) /\ (0 <= b <= 255))%Z
    /\ ((0 <= r' <= 255) /\ (0 <= g' <= 255) /\ (0 <= b' <= 255))%Z
    /\ firstn 3 (hd [] (JsPDF.sheets (assembled pageWidth pageHeight st)))
       = [ JsPDF.FilledRect 0%float 0%float pageWidth pageHeight
             (JsPDF.rgb (num r) (num g) (num b));
           JsPDF.TextItem (childName st ++ "'s") (pageWidth / 2)%float
             80%float "center" 32%float
             (JsPDF.rgb (num r') (num g') (num b'));
           JsPDF.TextItem "Coloring Book" (pageWidth / 2)%float 105%float
             "center" 48%float
             (JsPDF.rgb (num r') (num g') (num b')) ].
Proof.
  intros pageWidth pageHeight st r g b r' g' b' Hbg Htx num. subst num.
  destruct (hexToRgb_rgbOf _ _ _ _ Hbg) as (Ebg & Rr & Rg & Rb).
  destruct (hexToRgb_rgbOf _ _ _ _ Htx) as (Etx & Rr' & Rg' & Rb').
  rewrite (num_of_Z_byte r Rr), (num_of_Z_byte g Rg), (num_of_Z_byte b Rb)
    in Ebg.
  rewrite (num_of_Z_byte r' Rr'), (num_of_Z_byte g' Rg'), (num_of_Z_byte b' Rb')
    in Etx.
  split; [exact Ebg|]. split; [exact Etx|].
  split; [repeat split; lia|]. split; [repeat split; lia|].
  rewrite sheets_assembled. cbn [hd].
  unfold Spec.coverSheet, Spec.backgroundColor, Spec.titleColor.
  rewrite Ebg, Etx. reflexivity.
Qed.

Lemma C10_witness :
  rgbOf (bgColor Sample.form) = Some (245, 245, 240)%Z
  /\ rgbOf (textColor Sample.form) = Some (40, 40, 40)%Z
  /\ hexToRgb (bgColor Sample.form) = (245, 245, 240)%float
  /\ hexToRgb (textColor Sample.form) = (40, 40, 40)%float
  /\ firstn 3 (hd [] (JsPDF.sheets
                        (assembled Sample.a4Width Sample.a4Height Sample.form)))
     = [ JsPDF.FilledRect 0%float 0%float 210%float 297%float
           (JsPDF.rgb 245%float 245%float 240%float);
         JsPDF.TextItem "Aaru's" 105%float 80%float "center" 32%float
           (JsPDF.rgb 40%float 40%float 40%float);
         JsPDF.TextItem "Coloring Book" 105%float 105%float "center" 48%float
           (JsPDF.rgb 40%float 40%float 40%float) ].
Proof.
  split; [reflexivity|]. split; [reflexivity|].
  pose proof (C10_cover_colours_are_the_chosen_components
                Sample.a4Width Sample.a4Height Sample.form
                245 245 240 40 40 40 eq_refl eq_refl) as H.
  cbv zeta in H. destruct H as (Hbg & Htx & _ & _ & Hcover).
  split; [exact Hbg|]. split; [exact Htx | exact Hcover].
Defined.


(** ** Generation runs *)

Lemma isEmptyString_false (s : string) : s <> "" -> isEmptyString s = false.
Proof. destruct s; [congruence | reflexivity]. Qed.

Lemma isEmptyString_true (s : string) : s = "" -> isEmptyString s = true.
Proof. intros ->. reflexivity. Qed.

Lemma generateSinglePage_ok (svc : GenAI.Service) (userTheme : string)
    (calls i : nat) :
  succeeded (pageResult svc userTheme calls i) = true ->
  exists image,
    generateSinglePage svc calls i userTheme
    = ([GenerateContent (requestFor (promptFor i userTheme))],
       inr (mkPage i image (promptFor i userTheme))).
Proof.
  unfold pageResult, generateSinglePage.
  destruct (svc calls (requestFor (promptFor i userTheme))) as [reason|response];
    cbn; [discriminate|].
  destruct (isEmptyString _); cbn; [discriminate|].
  intros _. eexists. reflexivity.
Qed.

Lemma generateSinglePage_failed (svc : GenAI.Service) (userTheme : string)
    (calls i : nat) :
  succeeded (pageResult svc userTheme calls i) = false ->
  exists err,
    generateSinglePage svc calls i userTheme = (failure userTheme i err, inl err).
Proof.
  unfold pageResult, generateSinglePage, failure.
  destruct (svc calls (requestFor (promptFor i userTheme))) as [reason|response];
    cbn.
  - intros _. eexists. reflexivity.
  - destruct (isEmptyString _); cbn; [|discriminate].
    intros _. eexists. reflexivity.
Qed.

Lemma flat_map_shift {A : Type} (f : nat -> list A) (a m : nat) :
  flat_map f (seq (S a) m) = flat_map (fun k => f (S k)) (seq a m).
Proof.
  rewrite <- seq_shift. induction (seq a m) as [|x l IH]; [reflexivity|].
  cbn [map flat_map]. now rewrite IH.
Qed.

Lemma collected_step (svc : GenAI.Service) (userTheme : string)
    (calls i m : nat) :
  collected svc userTheme calls i (S m)
  = (match pageResult svc userTheme calls i with
     | inr p => [p]
     | inl _ => []
     end ++ collected svc userTheme (S calls) (S i) m)%list.
Proof.
  unfold collected. cbn [seq flat_map]. rewrite !Nat.add_0_r. f_equal.
  rewrite flat_map_shift. apply flat_map_ext. intro k.
  now rewrite !Nat.add_succ_r.
Qed.

(** The loop, run from iteration [i] with [remaining] iterations to go,
    when its first [m] requests succeed and the next one, if any, fails. *)
Lemma generateLoop_shape (svc : GenAI.Service) (userTheme : string)
    (count : nat) :
  forall (remaining i calls : nat) (newPages : list GeneratedPage) (m : nat),
    m <= remaining ->
    (forall k, k < m ->
       succeeded (pageResult svc userTheme (calls + k) (i + k)) = true) ->
    (m < remaining ->
       succeeded (pageResult svc userTheme (calls + m) (i + m)) = false) ->
    (m = remaining /\
     generateLoop svc userTheme count remaining i calls newPages
     = (flat_map (iteration userTheme count newPages
                    (collected svc userTheme calls i m) i) (seq 0 m), None))
    \/ (m < remaining /\ exists err,
        generateLoop svc userTheme count remaining i calls newPages
        = ((flat_map (iteration userTheme count newPages
                        (collected svc userTheme calls i m) i) (seq 0 m)
            ++ failure userTheme (i + m) err)%list, Some err)).
Proof.
  induction remaining as [|remaining IH]; intros i calls newPages m Hle Hok Hko.
  - left. assert (m = 0) as -> by lia. split; reflexivity.
  - destruct m as [|m].
    + right. split; [lia|].
      specialize (Hko ltac:(lia)). rewrite !Nat.add_0_r in Hko.
      destruct (generateSinglePage_failed _ _ _ _ Hko) as [err Herr].
      exists err. cbn [generateLoop]. rewrite Herr, Nat.add_0_r. reflexivity.
    + pose proof (Hok 0 ltac:(lia)) as H0. rewrite !Nat.add_0_r in H0.
      destruct (generateSinglePage_ok _ _ _ _ H0) as [image Himage].
      assert (pageResult svc userTheme calls i
              = inr (mkPage i image (promptFor i userTheme))) as Hres
        by (unfold pageResult; now rewrite Himage).
      specialize (IH (S i) (S calls)
                     (newPages ++ [mkPage i image (promptFor i userTheme)])%list
                     m ltac:(lia)).
      assert (forall k, k < m ->
                succeeded (pageResult svc userTheme (S calls + k) (S i + k)) = true)
        as Hok'.
      { intros k Hk. specialize (Hok (S k) ltac:(lia)).
        now rewrite !Nat.add_succ_r in Hok. }
      assert (m < remaining ->
              succeeded (pageResult svc userTheme (S calls + m) (S i + m)) = false)
        as Hko'.
      { intro Hm. specialize (Hko ltac:(lia)).
        now rewrite !Nat.add_succ_r in Hko. }
      specialize (IH Hok' Hko').
      assert (forall tail,
                (([GenerateContent (requestFor (promptFor i userTheme))]
                  ++ [SetPages (newPages ++ [mkPage i image (promptFor i userTheme)]);
                      SetProgress
                        ((Js.num_of_nat i + 1) / Js.num_of_nat count * 100)%float]
                  ++ flat_map
                       (iteration userTheme count
                          (newPages ++ [mkPage i image (promptFor i userTheme)])
                          (collected svc userTheme (S calls) (S i) m) (S i))
                       (seq 0 m) ++ tail)
                 = flat_map
                     (iteration userTheme count newPages
                        (collected svc userTheme calls i (S m)) i)
                     (seq 0 (S m)) ++ tail)%list) as Hglue.
      { intro tail. rewrite collected_step, Hres.
        cbn [seq flat_map]. rewrite flat_map_shift.
        unfold iteration. cbn [app firstn Js.num_of_nat].
        rewrite Nat.add_0_r. do 3 f_equal.
        f_equal. apply flat_map_ext. intro k.
        rewrite Nat.add_succ_r. cbn [Nat.add].
        now rewrite <- app_assoc. }
      cbn [generateLoop]. rewrite Himage.
      destruct IH as [[-> Heq] | [Hlt [err Heq]]]; rewrite Heq.
      * left. split; [reflexivity|].
        f_equal. specialize (Hglue []). now rewrite !app_nil_r in Hglue.
      * right. split; [lia|]. exists err. f_equal.
        rewrite <- Nat.add_succ_comm.
        rewrite <- (Hglue (failure userTheme (S i + m) err)).
        reflexivity.
Qed.

(** *** Reading a trace *)

Lemma flat_map_flat_map {A B C : Type} (g : B -> list C) (f : A -> list B)
    (l : list A) :
  flat_map g (flat_map f l) = flat_map (fun a => flat_map g (f a)) l.
Proof.
  induction l as [|a l IH]; [reflexivity|].
  cbn [flat_map]. now rewrite flat_map_app, IH.
Qed.

Lemma flat_map_single {A B : Type} (f : A -> B) (l : list A) :
  flat_map (fun a => [f a]) l = map f l.
Proof. induction l as [|a l IH]; [reflexivity|]. cbn. now rewrite IH. Qed.

Lemma flat_map_nothing {A B : Type} (l : list A) :
  flat_map (fun _ : A => @nil B) l = [].
Proof. induction l as [|a l IH]; [reflexivity|]. exact IH. Qed.

Section Iterations.

Variables (userTheme : string) (count : nat).
Variables (newPages ps : list GeneratedPage) (i : nat) (l : list nat).

Let body : Trace := flat_map (iteration userTheme count newPages ps i) l.

Lemma requests_iterations :
  requests body = map (fun k => requestFor (promptFor (i + k) userTheme)) l.
Proof.
  unfold body, requests. rewrite flat_map_flat_map. apply flat_map_single.
Qed.

Lemma progressUpdates_iterations :
  progressUpdates body
  = map (fun k => (Js.num_of_nat (S (i + k)) / Js.num_of_nat count * 100)%float) l.
Proof.
  unfold body, progressUpdates. rewrite flat_map_flat_map.
  apply flat_map_single.
Qed.

Lemma pagesUpdates_iterations :
  pagesUpdates body = map (fun k => (newPages ++ firstn (S k) ps)%list) l.
Proof.
  unfold body, pagesUpdates. rewrite flat_map_flat_map.
  apply flat_map_single.
Qed.

Lemma errorUpdates_iterations : errorUpdates body = [].
Proof.
  unfold body, errorUpdates. rewrite flat_map_flat_map.
  apply flat_map_nothing.
Qed.

Lemma generatingUpdates_iterations : generatingUpdates body = [].
Proof.
  unfold body, generatingUpdates. rewrite flat_map_flat_map.
  apply flat_map_nothing.
Qed.

Lemma no_confetti_in_iterations : ~ In Confetti body.
Proof.
  unfold body. rewrite in_flat_map. intros (k & _ & Hin).
  unfold iteration in Hin. cbn in Hin.
  repeat (destruct Hin as [Hin | Hin]; [discriminate|]). exact Hin.
Qed.

End Iterations.

Lemma last_cons {A : Type} (x d : A) (l : list A) :
  last (x :: l) d = last l x.
Proof.
  revert x d. induction l as [|y l IH]; intros x d; [reflexivity|].
  change (last (x :: y :: l) d) with (last (y :: l) d).
  now rewrite !IH.
Qed.

Lemma applyTrace_cells (tr : Trace) :
  forall st : AppState,
    pages (applyTrace st tr) = last (pagesUpdates tr) (pages st)
    /\ progress (applyTrace st tr) = last (progressUpdates tr) (progress st)
    /\ error (applyTrace st tr) = last (errorUpdates tr) (error st)
    /\ isGenerating (applyTrace st tr)
       = last (generatingUpdates tr) (isGenerating st)
    /\ childName (applyTrace st tr) = childName st
    /\ theme (applyTrace st tr) = theme st
    /\ pageCount (applyTrace st tr) = pageCount st
    /\ bgColor (applyTrace st tr) = bgColor st
    /\ textColor (applyTrace st tr) = textColor st
    /\ accentColor (applyTrace st tr) = accentColor st.
Proof.
  induction tr as [|ev tr IH]; intro st.
  - repeat split.
  - unfold applyTrace in *. cbn [fold_left].
    specialize (IH (applyEvent st ev)).
    destruct IH as (H1 & H2 & H3 & H4 & H5 & H6 & H7 & H8 & H9 & H10).
    rewrite H1, H2, H3, H4, H5, H6, H7, H8, H9, H10.
    unfold pagesUpdates, progressUpdates, errorUpdates, generatingUpdates.
    destruct ev; cbn [flat_map app applyEvent pages progress error isGenerating
                        childName theme pageCount bgColor textColor accentColor];
      rewrite ?last_cons; repeat split.
Qed.

Lemma last_map_seq {A : Type} (f : nat -> A) (a m : nat) (d : A) :
  last (map f (seq a (S m))) d = f (a + m).
Proof. rewrite seq_S, map_app. cbn [map]. apply last_last. Qed.

Lemma firstn_seq_le (k : nat) :
  forall a m, k <= m -> firstn k (seq a m) = seq a k.
Proof.
  induction k as [|k IH]; intros a m Hle; [reflexivity|].
  destruct m as [|m]; [lia|].
  cbn [seq firstn]. f_equal. apply IH. lia.
Qed.

(** *** The pages a run collects *)

Lemma collected_all (svc : GenAI.Service) (userTheme : string) :
  forall (m calls i : nat),
    (forall k, k < m ->
       succeeded (pageResult svc userTheme (calls + k) (i + k)) = true) ->
    List.length (collected svc userTheme calls i m) = m
    /\ map id (collected svc userTheme calls i m) = seq i m
    /\ map prompt (collected svc userTheme calls i m)
       = map (fun k => promptFor k userTheme) (seq i m).
Proof.
  induction m as [|m IH]; intros calls i Hok; [repeat split|].
  rewrite collected_step.
  pose proof (Hok 0 ltac:(lia)) as H0. rewrite !Nat.add_0_r in H0.
  destruct (generateSinglePage_ok _ _ _ _ H0) as [image Himage].
  unfold pageResult at 1 2 3. rewrite Himage. cbn [snd app List.length map seq id prompt].
  destruct (IH (S calls) (S i)) as (Hl & Hi & Hp).
  { intros k Hk. specialize (Hok (S k) ltac:(lia)).
    now rewrite !Nat.add_succ_r in Hok. }
  now rewrite Hl, Hi, Hp.
Qed.

(** *** The trace of a run *)

Lemma handleGenerate_shape (svc : GenAI.Service) (st : AppState) (m : nat) :
  submitted st ->
  runOf svc st m ->
  let body :=
    flat_map (iteration (theme st) (pageCount st) []
                (collected svc (theme st) 0 0 m) 0) (seq 0 m) in
  (m = pageCount st /\
   handleGenerate svc st
   = (preamble ++ body ++ [Confetti; SetIsGenerating false])%list)
  \/ (m < pageCount st /\ exists err,
      handleGenerate svc st
      = (preamble ++ body ++ failure (theme st) m err
           ++ [SetError (Some errorMessage); SetIsGenerating false])%list).
Proof.
  intros [Hname Htheme] (Hle & Hok & Hko) body.
  unfold handleGenerate.
  rewrite (isEmptyString_false _ Hname), (isEmptyString_false _ Htheme).
  cbn [orb]. rewrite Nat.sub_0_r.
  destruct (generateLoop_shape svc (theme st) (pageCount st)
              (pageCount st) 0 0 [] m Hle Hok Hko)
    as [[Hm Heq] | [Hm [err Heq]]]; rewrite Heq.
  - left. split; [exact Hm|].
    unfold preamble, body. cbn [app]. now rewrite <- !app_assoc.
  - right. split; [exact Hm|]. exists err.
    unfold preamble, body. cbn [app Nat.add]. now rewrite <- !app_assoc.
Qed.

(** Everything a run is seen to do, cell by cell. *)
Lemma run_summary (svc : GenAI.Service) (st : AppState) (m : nat) :
  submitted st ->
  runOf svc st m ->
  let tr := handleGenerate svc st in
  let ps := collected svc (theme st) 0 0 m in
  let failed := (m <? pageCount st)%nat in
  requests tr
  = map (fun k => requestFor (promptFor k (theme st)))
        (seq 0 (if failed then S m else m))
  /\ progressUpdates tr
     = 0%float
       :: map (fun k => (Js.num_of_nat k / Js.num_of_nat (pageCount st) * 100)%float)
              (seq 1 m)
  /\ pagesUpdates tr = [] :: map (fun k => firstn k ps) (seq 1 m)
  /\ errorUpdates tr = None :: (if failed then [Some errorMessage] else [])
  /\ generatingUpdates tr = [true; false]
  /\ (In Confetti tr -> failed = false).
Proof.
  intros Hsub Hrun tr ps failed.
  assert (forall (A : Type) (f : nat -> A),
            map (fun k => f (S k)) (seq 0 m) = map f (seq 1 m)) as Hshift.
  { intros A f. now rewrite <- seq_shift, map_map. }
  destruct (handleGenerate_shape svc st m Hsub Hrun)
    as [[Hm Heq] | [Hm [err Heq]]]; subst tr; rewrite Heq.
  - assert (failed = false) as -> by (apply Nat.ltb_ge; lia).
    unfold requests, progressUpdates, pagesUpdates, errorUpdates,
      generatingUpdates.
    rewrite !flat_map_app.
    fold (requests (flat_map (iteration (theme st) (pageCount st) [] ps 0) (seq 0 m))).
    fold (progressUpdates (flat_map (iteration (theme st) (pageCount st) [] ps 0) (seq 0 m))).
    fold (pagesUpdates (flat_map (iteration (theme st) (pageCount st) [] ps 0) (seq 0 m))).
    fold (errorUpdates (flat_map (iteration (theme st) (pageCount st) [] ps 0) (seq 0 m))).
    fold (generatingUpdates (flat_map (iteration (theme st) (pageCount st) [] ps 0) (seq 0 m))).
    rewrite requests_iterations, progressUpdates_iterations,
      pagesUpdates_iterations, errorUpdates_iterations,
      generatingUpdates_iterations.
    cbn [preamble flat_map app Nat.add]. rewrite !app_nil_r.
    rewrite <- (Hshift _ (fun k => (Js.num_of_nat k / Js.num_of_nat (pageCount st) * 100)%float)).
    rewrite <- (Hshift _ (fun k => firstn k ps)).
    repeat split.
  - assert (failed = true) as -> by (apply Nat.ltb_lt; lia).
    unfold requests, progressUpdates, pagesUpdates, errorUpdates,
      generatingUpdates.
    rewrite !flat_map_app.
    fold (requests (flat_map (iteration (theme st) (pageCount st) [] ps 0) (seq 0 m))).
    fold (progressUpdates (flat_map (iteration (theme st) (pageCount st) [] ps 0) (seq 0 m))).
    fold (pagesUpdates (flat_map (iteration (theme st) (pageCount st) [] ps 0) (seq 0 m))).
    fold (errorUpdates (flat_map (iteration (theme st) (pageCount st) [] ps 0) (seq 0 m))).
    fold (generatingUpdates (flat_map (iteration (theme st) (pageCount st) [] ps 0) (seq 0 m))).
    rewrite requests_iterations, progressUpdates_iterations,
      pagesUpdates_iterations, errorUpdates_iterations,
      generatingUpdates_iterations.
    cbn [preamble failure flat_map app Nat.add]. rewrite !app_nil_r.
    rewrite <- (Hshift _ (fun k => (Js.num_of_nat k / Js.num_of_nat (pageCount st) * 100)%float)).
    rewrite <- (Hshift _ (fun k => firstn k ps)).
    rewrite seq_S, map_app. cbn [map Nat.add].
    repeat split.
    intro Hin. exfalso. cbn [In] in Hin.
    repeat (destruct Hin as [Hin | Hin]; [discriminate|]).
    apply in_app_or in Hin. destruct Hin as [Hin | Hin].
    + exact (no_confetti_in_iterations _ _ _ _ _ _ Hin).
    + cbn [In] in Hin.
      repeat (destruct Hin as [Hin | Hin]; [discriminate|]). exact Hin.
Qed.

(** The state a run leaves behind. *)
Lemma after_run (svc : GenAI.Service) (st : AppState) (m : nat) :
  submitted st ->
  runOf svc st m ->
  let st' := afterGenerate svc st in
  pages st' = collected svc (theme st) 0 0 m
  /\ progress st'
     = match m with
       | 0 => 0%float
       | S _ => (Js.num_of_nat m / Js.num_of_nat (pageCount st) * 100)%float
       end
  /\ error st' = (if (m <? pageCount st)%nat then Some errorMessage else None)
  /\ isGenerating st' = false.
Proof.
  intros Hsub Hrun st'. subst st'. unfold afterGenerate.
  destruct (applyTrace_cells (handleGenerate svc st) st)
    as (Hp & Hg & He & Hi & _).
  destruct (run_summary svc st m Hsub Hrun) as (_ & Sg & Sp & Se & Si & _).
  rewrite Hp, Hg, He, Hi, Sg, Sp, Se, Si, !last_cons.
  destruct Hrun as (_ & Hok & _).
  destruct (collected_all svc (theme st) m 0 0 Hok) as (Hlen & _).
  repeat split.
  - destruct m as [|m]; [reflexivity|].
    rewrite last_map_seq. cbn [Nat.add].
    apply firstn_all2. rewrite Hlen. lia.
  - destruct m as [|m]; [reflexivity|].
    rewrite last_map_seq. reflexivity.
  - destruct (m <? pageCount st)%nat; reflexivity.
Qed.

Lemma runOf_all (svc : GenAI.Service) (st : AppState) :
  (forall k, k < pageCount st ->
     succeeded (pageResult svc (theme st) k k) = true) ->
  runOf svc st (pageCount st).
Proof. intro Hok. repeat split; [lia | exact Hok | lia]. Qed.

Lemma runOf_failing (svc : GenAI.Service) (st : AppState) (j : nat) :
  j < pageCount st ->
  (forall k, k < j -> succeeded (pageResult svc (theme st) k k) = true) ->
  succeeded (pageResult svc (theme st) j j) = false ->
  runOf svc st j.
Proof. intros Hj Hok Hko. repeat split; [lia | exact Hok | intros _; exact Hko]. Qed.

(** ** The claims on generation runs *)

(** C1: when the form is submitted with a recipient name and a theme, the
    page count is between 1 and 5 and every request succeeds, the run
    sends exactly [pageCount] requests (those for the pages
    [0 .. pageCount-1], in this order) and leaves exactly [pageCount]
    pages whose [id]s are [0 .. pageCount-1] in ascending order, with no
    error. *)
Theorem C1_successful_run_yields_pageCount_pages :
  forall (svc : GenAI.Service) (st : AppState),
    1 <= pageCount st <= 5 ->
    childName st <> "" ->
    theme st <> "" ->
    (forall k, k < pageCount st ->
       succeeded (pageResult svc (theme st) k k) = true) ->
    List.length (requests (handleGenerate svc st)) = pageCount st
    /\ requests (handleGenerate svc st)
       = map (fun k => requestFor (promptFor k (theme st)))
             (seq 0 (pageCount st))
    /\ List.length (pages (afterGenerate svc st)) = pageCount st
    /\ map id (pages (afterGenerate svc st)) = seq 0 (pageCount st)
    /\ error (afterGenerate svc st) = None.
Proof.
  intros svc st _ Hname Htheme Hok.
  pose proof (runOf_all svc st Hok) as Hrun.
  destruct (run_summary svc st _ (conj Hname Htheme) Hrun) as (Hreq & _).
  destruct (after_run svc st _ (conj Hname Htheme) Hrun) as (Hp & _ & He & _).
  destruct (collected_all svc (theme st) (pageCount st) 0 0 Hok) as (Hl & Hi & _).
  rewrite Nat.ltb_irrefl in Hreq, He.
  rewrite Hreq, Hp, He, length_map, length_seq.
  repeat split; assumption.
Qed.

Lemma C1_witness :
  List.length (requests (handleGenerate Sample.alwaysOk Sample.form)) = 3
  /\ map id (pages (afterGenerate Sample.alwaysOk Sample.form)) = [0; 1; 2].
Proof.
  assert (forall k, k < pageCount Sample.form ->
            succeeded (pageResult Sample.alwaysOk (theme Sample.form) k k) = true)
    as Hok by (intros k _; reflexivity).
  pose proof (C1_successful_run_yields_pageCount_pages
                Sample.alwaysOk Sample.form
                ltac:(cbn; lia) ltac:(discriminate) ltac:(discriminate) Hok)
    as (Hlen & _ & _ & Hids & _).
  split; [exact Hlen | exact Hids].
Defined.

(** C3: when the request for page [j] fails (the requests before it having
    succeeded, or it would not have been sent), the requests of the run are
    those for the pages [0 .. j] and nothing after; the run ends with the
    error message set and shown, without the success effect. *)
Theorem C3_first_failure_stops_the_run :
  forall (svc : GenAI.Service) (st : AppState) (j : nat),
    childName st <> "" ->
    theme st <> "" ->
    j < pageCount st ->
    (forall k, k < j -> succeeded (pageResult svc (theme st) k k) = true) ->
    succeeded (pageResult svc (theme st) j j) = false ->
    requests (handleGenerate svc st)
    = map (fun k => requestFor (promptFor k (theme st))) (seq 0 (S j))
    /\ List.length (requests (handleGenerate svc st)) = S j
    /\ error (afterGenerate svc st) = Some errorMessage
    /\ errorBannerRendered (afterGenerate svc st) = true
    /\ ~ In Confetti (handleGenerate svc st)
    /\ isGenerating (afterGenerate svc st) = false.
Proof.
  intros svc st j Hname Htheme Hj Hok Hko.
  pose proof (runOf_failing svc st j Hj Hok Hko) as Hrun.
  destruct (run_summary svc st _ (conj Hname Htheme) Hrun)
    as (Hreq & _ & _ & _ & _ & Hconf).
  destruct (after_run svc st _ (conj Hname Htheme) Hrun) as (_ & _ & He & Hg).
  assert ((j <? pageCount st)%nat = true) as Hlt by (apply Nat.ltb_lt; lia).
  rewrite Hlt in Hreq, He, Hconf.
  unfold errorBannerRendered. rewrite Hreq, He, Hg, length_map, length_seq.
  repeat split. intro Hin. specialize (Hconf Hin). discriminate.
Qed.

Lemma C3_witness :
  List.length (requests (handleGenerate (Sample.failingAt 1) Sample.form)) = 2
  /\ error (afterGenerate (Sample.failingAt 1) Sample.form) = Some errorMessage.
Proof.
  assert (forall k, k < 1 ->
            succeeded (pageResult (Sample.failingAt 1) (theme Sample.form) k k)
            = true) as Hok.
  { intros k Hk. assert (k = 0) as -> by lia. reflexivity. }
  pose proof (C3_first_failure_stops_the_run
                (Sample.failingAt 1) Sample.form 1
                ltac:(discriminate) ltac:(discriminate) ltac:(cbn; lia)
                Hok eq_refl)
    as (_ & Hlen & Herr & _).
  split; [exact Hlen | exact Herr].
Defined.

(** C4, as the code has it: in a run whose request [j] fails, the
    requests sent are those for the pages [0 .. j] and no further one, and
    the error message is set; but the [j] pages generated before the
    failure (ids [0 .. j-1]) stay in [pages], the download button is
    rendered exactly when [j] is at least 1, and [downloadPDF] on that
    state assembles the cover followed by one image sheet for each of
    those [j] pages.  Nothing can be assembled only when the very first
    request fails. *)
Theorem C4_pages_before_the_failure_are_kept :
  forall (pageWidth pageHeight : Js.number) (svc : GenAI.Service)
         (st : AppState) (j : nat),
    childName st <> "" ->
    theme st <> "" ->
    j < pageCount st ->
    (forall k, k < j -> succeeded (pageResult svc (theme st) k k) = true) ->
    succeeded (pageResult svc (theme st) j j) = false ->
    let st' := afterGenerate svc st in
    requests (handleGenerate svc st)
    = map (fun k => requestFor (promptFor k (theme st))) (seq 0 (S j))
    /\ error st' = Some errorMessage
    /\ pages st' = collected svc (theme st) 0 0 j
    /\ List.length (pages st') = j
    /\ map id (pages st') = seq 0 j
    /\ downloadButtonRendered st' = (0 <? j)%nat
    /\ JsPDF.sheets (assembled pageWidth pageHeight st')
       = Spec.coverSheet pageWidth pageHeight st'
           (option_map base64 (hd_error (collected svc (theme st) 0 0 j)))
         :: map (Spec.imageSheet pageWidth pageHeight st')
                (collected svc (theme st) 0 0 j)
    /\ List.length (JsPDF.sheets (assembled pageWidth pageHeight st')) = j + 1
    /\ (j = 0 -> pages st' = [] /\ downloadButtonRendered st' = false).
Proof.
  intros pageWidth pageHeight svc st j Hname Htheme Hj Hok Hko st'.
  pose proof (runOf_failing svc st j Hj Hok Hko) as Hrun.
  destruct (run_summary svc st _ (conj Hname Htheme) Hrun) as (Hreq & _).
  destruct (after_run svc st _ (conj Hname Htheme) Hrun) as (Hp & _ & He & _).
  fold st' in Hp, He.
  destruct (collected_all svc (theme st) j 0 0 Hok) as (Hl & Hi & _).
  assert ((j <? pageCount st)%nat = true) as Hlt by (apply Nat.ltb_lt; lia).
  rewrite Hlt in He, Hreq. unfold downloadButtonRendered.
  rewrite sheets_assembled. cbn [List.length]. rewrite length_map.
  rewrite Hp, Hl, Hi, He.
  split; [exact Hreq|].
  repeat split; try lia; subst j; reflexivity.
Qed.

Lemma C4_witness :
  let st' := afterGenerate (Sample.failingAt 1) Sample.form in
  List.length (requests (handleGenerate (Sample.failingAt 1) Sample.form)) = 2
  /\ error st' = Some errorMessage
  /\ map id (pages st') = [0]
  /\ downloadButtonRendered st' = true
  /\ map (filter JsPDF.isImage)
         (JsPDF.sheets (assembled Sample.a4Width Sample.a4Height st'))
     = [ [JsPDF.ImageItem "data:image/png;base64,img0" "PNG" 52.5%float
                          150%float 105%float 105%float];
         [JsPDF.ImageItem "data:image/png;base64,img0" "PNG" 20%float
                          63.5%float 170%float 170%float] ].
Proof.
  assert (forall k, k < 1 ->
            succeeded (pageResult (Sample.failingAt 1) (theme Sample.form) k k)
            = true) as Hok.
  { intros k Hk. assert (k = 0) as -> by lia. reflexivity. }
  pose proof (C4_pages_before_the_failure_are_kept
                Sample.a4Width Sample.a4Height
                (Sample.failingAt 1) Sample.form 1
                ltac:(discriminate) ltac:(discriminate) ltac:(cbn; lia)
                Hok eq_refl)
    as (Hreq & Herr & _ & _ & Hids & Hbtn & Hsheets & _).
  cbv zeta. split; [now rewrite Hreq|]. split; [exact Herr|].
  split; [exact Hids|]. split; [exact Hbtn|].
  rewrite Hsheets. reflexivity.
Defined.

(** C4 as stated fails: with three pages asked for and the second request
    rejected, the run has failed, yet page 0 is still in [pages], the
    download button is rendered, and [downloadPDF] then assembles a
    two-sheet document from that partial sequence. *)
Lemma C4_partial_document_after_failure :
  let st' := afterGenerate (Sample.failingAt 1) Sample.form in
  succeeded (pageResult (Sample.failingAt 1) (theme Sample.form) 0 0) = true
  /\ succeeded (pageResult (Sample.failingAt 1) (theme Sample.form) 1 1) = false
  /\ error st' = Some errorMessage
  /\ map id (pages st') = [0]
  /\ downloadButtonRendered st' = true
  /\ List.length (JsPDF.sheets (assembled Sample.a4Width Sample.a4Height st')) = 2
  /\ ~ Spec.noPartialDocument (Sample.failingAt 1) Sample.form.
Proof.
  cbv zeta.
  split; [vm_compute; reflexivity|].
  split; [vm_compute; reflexivity|].
  split; [vm_compute; reflexivity|].
  split; [vm_compute; reflexivity|].
  split; [vm_compute; reflexivity|].
  split; [vm_compute; reflexivity|].
  assert (forall k, k < 1 ->
            succeeded (pageResult (Sample.failingAt 1) (theme Sample.form) k k)
            = true) as Hok.
  { intros k Hk. assert (k = 0) as -> by lia. reflexivity. }
  assert (1 < pageCount Sample.form) as Hlt by (cbn; lia).
  assert (submitted Sample.form) as Hsub by (split; discriminate).
  assert (pages (afterGenerate (Sample.failingAt 1) Sample.form) <> [])
    as Hpages by (vm_compute; discriminate).
  intro H. apply Hpages.
  exact (proj1 (H Hsub 1 Hlt Hok eq_refl)).
Qed.

(** C5: in a run over [n] pages whose first [m] requests succeed, the
    values passed to [setProgress] are the reset to 0 followed by exactly
    one value per successful page, the [k]-th being [(k / n) * 100]; the
    [k]-th snapshot passed to [setPages] holds the pages [0 .. k-1], so
    the updates come in strictly increasing page order and none is
    repeated; when all [n] requests succeed ([n] between 1 and 5, as the
    form allows) the progress the run ends with is 100. *)
Theorem C5_progress_is_k_over_n_times_100 :
  forall (svc : GenAI.Service) (st : AppState) (m : nat),
    childName st <> "" ->
    theme st <> "" ->
    m <= pageCount st ->
    (forall k, k < m -> succeeded (pageResult svc (theme st) k k) = true) ->
    (m < pageCount st -> succeeded (pageResult svc (theme st) m m) = false) ->
    progressUpdates (handleGenerate svc st)
    = 0%float
      :: map (fun k => (Js.num_of_nat k / Js.num_of_nat (pageCount st) * 100)%float)
             (seq 1 m)
    /\ map (map id) (pagesUpdates (handleGenerate svc st))
       = [] :: map (fun k => seq 0 k) (seq 1 m)
    /\ List.length (progressUpdates (handleGenerate svc st)) = S m
    /\ (m = pageCount st -> 1 <= pageCount st <= 5 ->
        progress (afterGenerate svc st) = 100%float).
Proof.
  intros svc st m Hname Htheme Hle Hok Hko.
  assert (runOf svc st m) as Hrun by (repeat split; assumption).
  destruct (run_summary svc st _ (conj Hname Htheme) Hrun)
    as (_ & Hprog & Hpages & _).
  destruct (after_run svc st _ (conj Hname Htheme) Hrun) as (_ & Hfinal & _).
  destruct (collected_all svc (theme st) m 0 0 Hok) as (Hl & Hi & _).
  rewrite Hprog, Hpages. cbn [map List.length].
  rewrite !length_map, length_seq, map_map.
  repeat split.
  - f_equal. apply map_ext_in. intros k Hk. apply in_seq in Hk.
    rewrite <- firstn_map, Hi. apply firstn_seq_le. lia.
  - intros -> Hn. rewrite Hfinal.
    destruct (pageCount st) as [|[|[|[|[|[|n]]]]]]; try lia; reflexivity.
Qed.

Lemma C5_witness :
  progressUpdates (handleGenerate Sample.alwaysOk (Sample.formWith "Aaru" "Bluey" 4))
  = [0; 25; 50; 75; 100]%float
  /\ progress (afterGenerate Sample.alwaysOk (Sample.formWith "Aaru" "Bluey" 4))
     = 100%float.
Proof.
  pose proof (C5_progress_is_k_over_n_times_100
                Sample.alwaysOk (Sample.formWith "Aaru" "Bluey" 4) 4
                ltac:(discriminate) ltac:(discriminate) ltac:(cbn; lia)
                ltac:(intros k _; reflexivity)
                ltac:(cbn; lia))
    as (Hprog & _ & _ & Hfinal).
  split; [exact Hprog|].
  exact (Hfinal eq_refl ltac:(cbn; lia)).
Defined.

(** C9: when the recipient name or the theme is empty, the handler does
    nothing after [preventDefault]: no request is sent, no state setter
    is called, and the component state is left as it was. *)
Theorem C9_empty_name_or_theme_does_nothing :
  forall (svc : GenAI.Service) (st : AppState),
    childName st = "" \/ theme st = "" ->
    handleGenerate svc st = [PreventDefault]
    /\ requests (handleGenerate svc st) = []
    /\ afterGenerate svc st = st
    /\ pages (afterGenerate svc st) = pages st
    /\ progress (afterGenerate svc st) = progress st
    /\ error (afterGenerate svc st) = error st
    /\ isGenerating (afterGenerate svc st) = isGenerating st.
Proof.
  intros svc st Hempty.
  assert (handleGenerate svc st = [PreventDefault]) as Heq.
  { unfold handleGenerate.
    destruct Hempty as [H | H]; rewrite (isEmptyString_true _ H);
      [|rewrite orb_true_r]; reflexivity. }
  unfold afterGenerate. rewrite Heq. repeat split.
Qed.

Lemma C9_witness :
  handleGenerate Sample.alwaysOk (Sample.formWith "" "Bluey" 3) = [PreventDefault]
  /\ handleGenerate Sample.alwaysOk (Sample.formWith "Aaru" "" 3) = [PreventDefault].
Proof.
  split.
  - exact (proj1 (C9_empty_name_or_theme_does_nothing
                    Sample.alwaysOk (Sample.formWith "" "Bluey" 3)
                    (or_introl eq_refl))).
  - exact (proj1 (C9_empty_name_or_theme_does_nothing
                    Sample.alwaysOk (Sample.formWith "Aaru" "" 3)
                    (or_intror eq_refl))).
Defined.

(** ** The two scenarios of the specification, evaluated *)

(** Three pages on the theme "Space Dinosaurs", all requests answered:
    three requests, progress 33.3, 66.7 and 100, then a document of four
    sheets. *)
Example scenario_all_succeed :
  let st' := afterGenerate Sample.alwaysOk Sample.form in
  List.length (requests (handleGenerate Sample.alwaysOk Sample.form)) = 3
  /\ progressUpdates (handleGenerate Sample.alwaysOk Sample.form)
     = [0; 33.333333333333329; 66.666666666666657; 100]%float
  /\ map id (pages st') = [0; 1; 2]
  /\ map base64 (pages st')
     = ["data:image/png;base64,img0"; "data:image/png;base64,img1";
        "data:image/png;base64,img2"]
  /\ error st' = None
  /\ List.length (JsPDF.sheets (assembled Sample.a4Width Sample.a4Height st')) = 4
  /\ JsPDF.savedAs (assembled Sample.a4Width Sample.a4Height st')
     = Some "Aaru_Coloring_Book.pdf".
Proof. vm_compute. repeat split. Qed.

(** The same form when the answer to the second request has no image:
    two requests, the error message, page 0 still in [pages]. *)
Example scenario_second_request_without_image :
  let st' := afterGenerate (Sample.textOnlyAt 1) Sample.form in
  List.length (requests (handleGenerate (Sample.textOnlyAt 1) Sample.form)) = 2
  /\ pageResult (Sample.textOnlyAt 1) "Space Dinosaurs" 1 1
     = inl (JsError "No image data received from AI")
  /\ error st' = Some errorMessage
  /\ map id (pages st') = [0]
  /\ isGenerating st' = false.
Proof. vm_compute. repeat split. Qed.

(** The sheets follow the order of [pages], whatever the [id]s are. *)
Example sheets_follow_list_order :
  let p (n : nat) (img : string) := mkPage n img "" in
  let st := mkState "Aaru" "Bluey" 3 "#f5f5f0" "#282828" "#f97316" false
                    100%float [p 2 "c"; p 0 "a"; p 1 "b"] None in
  map (fun sheet =>
         flat_map (fun it => match it with
                             | JsPDF.ImageItem img _ _ _ _ _ => [img]
                             | _ => []
                             end) sheet)
      (JsPDF.sheets (assembled Sample.a4Width Sample.a4Height st))
  = [["c"]; ["c"]; ["a"]; ["b"]].
Proof. vm_compute. reflexivity. Qed.

(** ** The page count the form can hold *)

Lemma act_keeps_pageCount_in_range (st : AppState) (a : Action) :
  1 <= pageCount st <= 5 -> 1 <= pageCount (act st a) <= 5.
Proof.
  intro H. destruct a; cbn [act pageCount]; try exact H.
  - destruct (existsb (Nat.eqb n) pageCountOptions) eqn:E; [|exact H].
    cbn [pageCount]. apply existsb_exists in E. destruct E as (x & Hin & Hx).
    apply Nat.eqb_eq in Hx. subst x. cbn in Hin. lia.
  - unfold afterGenerate.
    destruct (applyTrace_cells (handleGenerate svc st) st)
      as (_ & _ & _ & _ & _ & _ & Hc & _).
    now rewrite Hc.
Qed.

(** Whatever the user does, the page count stays one of the five values
    the form offers. *)
Lemma pageCount_in_range (actions : list Action) :
  1 <= pageCount (session actions) <= 5.
Proof.
  unfold session.
  assert (1 <= pageCount initialState <= 5) as H0 by (cbn; lia).
  revert H0. generalize initialState.
  induction actions as [|a actions IH]; intros st H; [exact H|].
  cbn [fold_left]. apply IH. now apply act_keeps_pageCount_in_range.
Qed.

(** So a run started from the form in which every request succeeds ends
    with the progress at 100. *)
Lemma session_run_ends_at_100 (actions : list Action) (svc : GenAI.Service) :
  let st := session actions in
  submitted st ->
  (forall k, k < pageCount st ->
     succeeded (pageResult svc (theme st) k k) = true) ->
  progress (afterGenerate svc st) = 100%float.
Proof.
  intros st Hsub Hok.
  pose proof (pageCount_in_range actions) as Hn. fold st in Hn.
  destruct (after_run svc st _ Hsub (runOf_all svc st Hok)) as (_ & Hfinal & _).
  rewrite Hfinal.
  destruct (pageCount st) as [|[|[|[|[|[|n]]]]]]; try lia; reflexivity.
Qed.

(* ================================================================== *)
(** * Further properties of the code *)

(** ** Every run settles *)

Lemma first_failure (ok : nat -> bool) (n : nat) :
  exists m, m <= n /\ (forall k, k < m -> ok k = true)
            /\ (m < n -> ok m = false).
Proof.
  induction n as [|n (m & Hle & Hok & Hko)].
  - exists 0. repeat split; intros; lia.
  - destruct (Nat.eq_dec m n) as [-> | Hne].
    + destruct (ok n) eqn:E.
      * exists (S n). repeat split; [lia | | lia].
        intros k Hk. destruct (Nat.eq_dec k n) as [-> | Hkn]; [exact E|].
        apply Hok. lia.
      * exists n. repeat split; [lia | exact Hok | intros _; exact E].
    + exists m. repeat split; [lia | exact Hok |].
      intros _. apply Hko. lia.
Qed.

Lemma run_exists (svc : GenAI.Service) (st : AppState) :
  exists m, runOf svc st m.
Proof.
  exact (first_failure
           (fun k => succeeded (pageResult svc (theme st) k k)) (pageCount st)).
Qed.

Lemma confetti_when_all_succeed (svc : GenAI.Service) (st : AppState) :
  submitted st ->
  runOf svc st (pageCount st) ->
  In Confetti (handleGenerate svc st).
Proof.
  intros Hsub Hrun.
  destruct (handleGenerate_shape svc st _ Hsub Hrun)
    as [[_ Heq] | [Hlt _]]; [|lia].
  rewrite Heq. apply in_or_app. right. apply in_or_app. right.
  left. reflexivity.
Qed.

(** X1: whatever the service answers, a submitted run settles: some
    number [m] of pages (at most [pageCount]) has been generated, they are
    in [pages] with ids [0 .. m-1], the submit button is enabled again,
    and either all pages are there, the success effect was fired and there
    is no error, or fewer are there and the error message is set; one
    request more than the pages generated was sent in that case. *)
Theorem X1_every_run_settles :
  forall (svc : GenAI.Service) (st : AppState),
    childName st <> "" ->
    theme st <> "" ->
    exists m,
      m <= pageCount st
      /\ map id (pages (afterGenerate svc st)) = seq 0 m
      /\ List.length (requests (handleGenerate svc st))
         = Nat.min (S m) (pageCount st)
      /\ submitDisabled (afterGenerate svc st) = false
      /\ (error (afterGenerate svc st) = None <-> m = pageCount st)
      /\ (error (afterGenerate svc st) = Some errorMessage <-> m < pageCount st)
      /\ (In Confetti (handleGenerate svc st) <-> m = pageCount st).
Proof.
  intros svc st Hname Htheme.
  destruct (run_exists svc st) as [m Hrun].
  pose proof (conj Hname Htheme : submitted st) as Hsub.
  destruct (run_summary svc st m Hsub Hrun) as (Hreq & _ & _ & _ & _ & Hconf).
  destruct (after_run svc st m Hsub Hrun) as (Hp & _ & He & Hg).
  pose proof Hrun as (Hle & Hok & _).
  destruct (collected_all svc (theme st) m 0 0 Hok) as (_ & Hid & _).
  exists m. unfold submitDisabled.
  rewrite Hreq, Hp, He, Hg, Hid, length_map, length_seq.
  destruct (m <? pageCount st)%nat eqn:E.
  - apply Nat.ltb_lt in E.
    repeat split; try lia; try discriminate; try reflexivity.
    intro Hin. specialize (Hconf Hin). discriminate.
  - apply Nat.ltb_ge in E. assert (m = pageCount st) as Hm by lia.
    repeat split; try lia; try discriminate; try reflexivity.
    intros _. apply confetti_when_all_succeed; [exact Hsub|].
    now rewrite <- Hm.
Qed.

Lemma X1_witness :
  exists m,
    m <= 3
    /\ map id (pages (afterGenerate (Sample.textOnlyAt 2) Sample.form)) = seq 0 m.
Proof.
  destruct (X1_every_run_settles (Sample.textOnlyAt 2) Sample.form
              ltac:(discriminate) ltac:(discriminate))
    as (m & Hle & Hid & _).
  exists m. split; [exact Hle | exact Hid].
Defined.

(** ** What a run leaves alone and what it starts from *)

(** X3: a run starts from scratch.  What it does depends only on the
    name, the theme and the page count; the pages, progress, error and
    busy flag left by an earlier run (as when the retry button is used)
    have no influence on the requests made nor on the pages, progress,
    error and busy flag it ends with. *)
Theorem X3_retry_starts_from_scratch :
  forall (svc : GenAI.Service) (st1 st2 : AppState),
    childName st1 = childName st2 ->
    theme st1 = theme st2 ->
    pageCount st1 = pageCount st2 ->
    childName st1 <> "" ->
    theme st1 <> "" ->
    handleGenerate svc st1 = handleGenerate svc st2
    /\ pages (afterGenerate svc st1) = pages (afterGenerate svc st2)
    /\ progress (afterGenerate svc st1) = progress (afterGenerate svc st2)
    /\ error (afterGenerate svc st1) = error (afterGenerate svc st2)
    /\ isGenerating (afterGenerate svc st1) = isGenerating (afterGenerate svc st2).
Proof.
  intros svc st1 st2 Hn Ht Hc Hname Htheme.
  assert (handleGenerate svc st1 = handleGenerate svc st2) as Htr
    by (unfold handleGenerate; now rewrite Hn, Ht, Hc).
  split; [exact Htr|].
  destruct (run_exists svc st1) as [m Hrun1].
  assert (runOf svc st2 m) as Hrun2
    by (unfold runOf in *; now rewrite <- Ht, <- Hc).
  assert (submitted st1) as Hsub1 by (split; assumption).
  assert (submitted st2) as Hsub2 by (split; congruence).
  destruct (after_run svc st1 m Hsub1 Hrun1) as (Hp1 & Hg1 & He1 & Hi1).
  destruct (after_run svc st2 m Hsub2 Hrun2) as (Hp2 & Hg2 & He2 & Hi2).
  rewrite Hp1, Hg1, He1, Hi1, Hp2, Hg2, He2, Hi2, Ht, Hc.
  repeat split.
Qed.

Lemma X3_witness :
  let used :=
    mkState "Aaru" "Space Dinosaurs" 3 "#fdf2f8" "#9d174d" "#ec4899" false
            33%float [mkPage 0 "old" "old prompt"] (Some errorMessage) in
  pages (afterGenerate Sample.alwaysOk Sample.form)
  = pages (afterGenerate Sample.alwaysOk used).
Proof.
  cbv zeta.
  exact (proj1 (proj2
    (X3_retry_starts_from_scratch Sample.alwaysOk Sample.form
       (mkState "Aaru" "Space Dinosaurs" 3 "#fdf2f8" "#9d174d" "#ec4899" false
                33%float [mkPage 0 "old" "old prompt"] (Some errorMessage))
       eq_refl eq_refl eq_refl ltac:(discriminate) ltac:(discriminate)))).
Defined.

(** ** The states the component can reach *)

Lemma scanParts_data_url (ps : list GenAI.Part) :
  isEmptyString (scanParts ps "") = false ->
  isDataUrl (scanParts ps "") = true.
Proof.
  rewrite scanParts_first.
  destruct (hd_error (inlinePayloads ps)) as [blob|]; [|discriminate].
  intros _. unfold isDataUrl.
  destruct (interpolate (GenAI.data blob)); vm_compute; reflexivity.
Qed.

Lemma pageResult_page (svc : GenAI.Service) (userTheme : string)
    (calls i : nat) (p : GeneratedPage) :
  pageResult svc userTheme calls i = inr p ->
  id p = i /\ prompt p = promptFor i userTheme /\ isDataUrl (base64 p) = true.
Proof.
  unfold pageResult, generateSinglePage.
  destruct (svc calls (requestFor (promptFor i userTheme))) as [reason|response];
    [discriminate|].
  destruct (isEmptyString (scanParts (responseParts response) "")) eqn:E;
    [discriminate|].
  cbn [snd]. intro H. injection H as <-. cbn [id prompt base64].
  repeat split. now apply scanParts_data_url.
Qed.

Lemma collected_pages (svc : GenAI.Service) (userTheme : string)
    (calls i m : nat) :
  Forall (fun p => isDataUrl (base64 p) = true
                   /\ prompt p = promptFor (id p) userTheme)
         (collected svc userTheme calls i m).
Proof.
  unfold collected. apply Forall_flat_map. apply Forall_forall.
  intros k _.
  destruct (pageResult svc userTheme (calls + k) (i + k)) as [err|p] eqn:E;
    [constructor|].
  destruct (pageResult_page _ _ _ _ _ E) as (Hid & Hprompt & Hurl).
  constructor; [|constructor]. split; [exact Hurl|]. now rewrite Hid.
Qed.

Lemma handleGenerate_guard (svc : GenAI.Service) (st : AppState) :
  ~ submitted st -> afterGenerate svc st = st.
Proof.
  intro Hnot. unfold afterGenerate, handleGenerate.
  destruct (isEmptyString (childName st)) eqn:E1; [reflexivity|].
  destruct (isEmptyString (theme st)) eqn:E2; [reflexivity|].
  exfalso. apply Hnot. split; intro H; rewrite H in *; discriminate.
Qed.

Lemma submitted_dec (st : AppState) : submitted st \/ ~ submitted st.
Proof.
  unfold submitted.
  destruct (string_dec (childName st) "") as [H1|H1];
    destruct (string_dec (theme st) "") as [H2|H2]; tauto.
Qed.

Lemma afterGenerate_wellFormed (svc : GenAI.Service) (st : AppState) :
  wellFormed st -> wellFormed (afterGenerate svc st).
Proof.
  intro Hwf. destruct (submitted_dec st) as [Hsub | Hnot];
    [|now rewrite handleGenerate_guard].
  destruct (run_exists svc st) as [m Hrun].
  destruct (after_run svc st m Hsub Hrun) as (Hp & _ & He & Hg).
  pose proof Hrun as (Hle & Hok & _).
  destruct (collected_all svc (theme st) m 0 0 Hok) as (Hlen & Hid & _).
  pose proof (collected_pages svc (theme st) 0 0 m) as Hall.
  destruct (applyTrace_cells (handleGenerate svc st) st)
    as (_ & _ & _ & _ & _ & _ & Hc & _).
  fold (afterGenerate svc st) in Hc.
  destruct Hwf as (_ & _ & _ & _ & _ & _ & Hn).
  unfold wellFormed. rewrite Hp, He, Hg, Hc, Hlen, Hid.
  repeat split; try lia.
  - eapply Forall_impl; [|exact Hall]. now intros p [H _].
  - exists (theme st). eapply Forall_impl; [|exact Hall]. now intros p [_ H].
  - destruct (m <? pageCount st)%nat; [right | left]; reflexivity.
Qed.

Lemma act_wellFormed (st : AppState) (a : Action) :
  wellFormed st -> wellFormed (act st a).
Proof.
  intro Hwf. destruct a; try exact Hwf;
    try (now apply afterGenerate_wellFormed).
  cbn [act]. destruct (existsb (Nat.eqb n) pageCountOptions) eqn:E;
    [|exact Hwf].
  destruct Hwf as (H1 & H2 & H3 & H4 & H5 & H6 & _).
  repeat split; try assumption;
    apply existsb_exists in E; destruct E as (x & Hin & Hx);
    apply Nat.eqb_eq in Hx; subst x; cbn in Hin; cbn [pageCount]; lia.
Qed.

Lemma session_wellFormed (actions : list Action) :
  wellFormed (session actions).
Proof.
  unfold session.
  assert (wellFormed initialState) as H0.
  { unfold wellFormed. cbn.
    split; [reflexivity|]. split; [lia|]. split; [constructor|].
    split; [exists ""; constructor|]. split; [reflexivity|].
    split; [now left | lia]. }
  revert H0. generalize initialState.
  induction actions as [|a actions IH]; intros st H; [exact H|].
  cbn [fold_left]. apply IH. now apply act_wellFormed.
Qed.

(** X4: in every state the user can reach by typing, choosing and
    submitting, whatever the service answered: the pages are numbered
    [0, 1, ...] in order (so their React keys are distinct), there are at
    most five of them, every image is a PNG data URL, all prompts were
    built from one theme, no run is marked as in progress, and the error
    is either absent or the one fixed message. *)
Theorem X4_reachable_states_are_well_formed :
  forall actions : list Action,
    map id (pages (session actions))
    = seq 0 (List.length (pages (session actions)))
    /\ NoDup (map id (pages (session actions)))
    /\ List.length (pages (session actions)) <= 5
    /\ Forall (fun p => isDataUrl (base64 p) = true) (pages (session actions))
    /\ (exists themeText,
          Forall (fun p => prompt p = promptFor (id p) themeText)
                 (pages (session actions)))
    /\ isGenerating (session actions) = false
    /\ (error (session actions) = None
        \/ error (session actions) = Some errorMessage).
Proof.
  intro actions.
  destruct (session_wellFormed actions) as (H1 & H2 & H3 & H4 & H5 & H6 & _).
  repeat split; try assumption.
  rewrite H1. apply seq_NoDup.
Qed.

(** X5: whenever the download button is on screen, the document it
    produces has one sheet per generated page plus the cover, between two
    and six sheets in all, and the picture on the cover is the image of
    page 0. *)
Theorem X5_downloadable_document :
  forall (actions : list Action) (pageWidth pageHeight : Js.number),
    downloadButtonRendered (session actions) = true ->
    let doc := assembled pageWidth pageHeight (session actions) in
    List.length (JsPDF.sheets doc) = List.length (pages (session actions)) + 1
    /\ 2 <= List.length (JsPDF.sheets doc) <= 6
    /\ exists page0,
         hd_error (pages (session actions)) = Some page0
         /\ id page0 = 0
         /\ isDataUrl (base64 page0) = true
         /\ filter JsPDF.isImage (hd [] (JsPDF.sheets doc))
            = [JsPDF.ImageItem (base64 page0) "PNG" (pageWidth / 4)%float
                 150%float (pageWidth / 2)%float (pageWidth / 2)%float].
Proof.
  intros actions pageWidth pageHeight Hbtn doc. subst doc.
  destruct (session_wellFormed actions) as (Hid & Hlen & Hurl & _).
  unfold downloadButtonRendered in Hbtn. apply Nat.ltb_lt in Hbtn.
  rewrite sheets_assembled. cbn [List.length hd]. rewrite length_map.
  rewrite images_of_coverSheet.
  destruct (pages (session actions)) as [|page0 rest];
    [cbn in Hbtn; lia|].
  cbn [List.length] in *. repeat split; try lia.
  exists page0. cbn [hd_error option_map].
  cbn [map seq] in Hid. injection Hid as Hid0 _.
  inversion Hurl; subst. repeat split; assumption.
Qed.

Lemma X5_witness :
  let actions := [TypeChildName "Aaru"; TypeTheme "Bluey"; SelectPageCount 2;
                  Submit Sample.alwaysOk] in
  downloadButtonRendered (session actions) = true
  /\ List.length
       (JsPDF.sheets (assembled Sample.a4Width Sample.a4Height (session actions)))
     = 3.
Proof.
  cbv zeta. split; [reflexivity|].
  exact (proj1 (X5_downloadable_document
                  [TypeChildName "Aaru"; TypeTheme "Bluey"; SelectPageCount 2;
                   Submit Sample.alwaysOk]
                  Sample.a4Width Sample.a4Height eq_refl)).
Defined.

(** ** [hexToRgb] on other strings *)

Lemma substring_past_the_end (n m : nat) :
  forall s, String.length s <= n -> substring n m s = "".
Proof.
  induction n as [|n IH]; intros s Hlen.
  - destruct s; [|cbn in Hlen; lia]. destruct m; reflexivity.
  - destruct s as [|c s]; [reflexivity|].
    cbn [substring]. apply IH. cbn in Hlen. lia.
Qed.

(** X6: [hexToRgb] reads the characters at positions 1 to 6 and nothing
    else: the first character (the [#]) may be anything and whatever
    follows the seventh character is ignored, so an eight-digit colour
    with an alpha channel gives the components of its first six digits. *)
Theorem X6_hexToRgb_reads_positions_1_to_6 :
  forall (c0 c0' : ascii) (digits rest : string),
    String.length digits = 6 ->
    hexToRgb (String c0 (digits ++ rest)) = hexToRgb (String c0' digits).
Proof.
  intros c0 c0' digits rest Hlen.
  destruct digits as [|c1 [|c2 [|c3 [|c4 [|c5 [|c6 [|c7 tl]]]]]]];
    try discriminate Hlen.
  unfold hexToRgb, Js.slice. cbn [append substring Nat.sub].
  destruct rest; reflexivity.
Qed.

Lemma X6_witness :
  hexToRgb "#ff8000cc" = hexToRgb "xff8000"
  /\ hexToRgb "#ff8000cc" = (255, 128, 0)%float.
Proof.
  split.
  - exact (X6_hexToRgb_reads_positions_1_to_6 "#" "x" "ff8000" "cc" eq_refl).
  - reflexivity.
Defined.

(** X7: a string that is too short gives [NaN] components instead of an
    error: with at most five characters the blue component is [NaN], with
    at most three the green one too, with at most one all three.  In
    particular the three-digit shorthand [#rgb] is not expanded. *)
Theorem X7_short_colour_strings_give_NaN :
  forall hex : string,
    (String.length hex <= 5 -> at2 (hexToRgb hex) = Js.NaN)
    /\ (String.length hex <= 3 ->
        at1 (hexToRgb hex) = Js.NaN /\ at2 (hexToRgb hex) = Js.NaN)
    /\ (String.length hex <= 1 ->
        hexToRgb hex = (Js.NaN, Js.NaN, Js.NaN)).
Proof.
  intro hex. unfold hexToRgb, Js.slice, at1, at2. cbn [fst snd Nat.sub].
  split; [|split]; intro Hlen.
  - rewrite (substring_past_the_end 5 2 hex) by lia. reflexivity.
  - rewrite (substring_past_the_end 5 2 hex),
      (substring_past_the_end 3 2 hex) by lia.
    split; reflexivity.
  - rewrite (substring_past_the_end 5 2 hex),
      (substring_past_the_end 3 2 hex),
      (substring_past_the_end 1 2 hex) by lia.
    reflexivity.
Qed.

Lemma X7_witness :
  at2 (hexToRgb "#fff") = Js.NaN
  /\ hexToRgb "#fff" = (255%float, 15%float, Js.NaN)
  /\ hexToRgb "" = (Js.NaN, Js.NaN, Js.NaN).
Proof.
  split; [|split].
  - exact (proj1 (X7_short_colour_strings_give_NaN "#fff") ltac:(cbn; lia)).
  - reflexivity.
  - exact (proj2 (proj2 (X7_short_colour_strings_give_NaN "")) ltac:(cbn; lia)).
Defined.

(** ** Cover templates and preset themes *)

Lemma In_TEMPLATES (t : CoverTemplate) :
  In t TEMPLATES ->
  t = mkTemplate "classic" "Classic" "#f5f5f0" "#282828" "#f97316"
  \/ t = mkTemplate "sunshine" "Sunshine" "#fffbeb" "#92400e" "#f59e0b"
  \/ t = mkTemplate "sky" "Sky" "#f0f9ff" "#075985" "#0ea5e9"
  \/ t = mkTemplate "berry" "Berry" "#fdf2f8" "#9d174d" "#ec4899".
Proof.
  unfold TEMPLATES. cbn [In]. intuition congruence.
Qed.

(** X8: the four cover templates exclude each other: in no state are two
    of them highlighted, a highlighted template always has its label
    highlighted too, and choosing a template highlights exactly that one
    and sets the three colours to its values. *)
Theorem X8_one_template_at_a_time :
  forall (st : AppState) (t1 t2 : CoverTemplate),
    In t1 TEMPLATES ->
    In t2 TEMPLATES ->
    (templateHighlighted st t1 = true -> templateHighlighted st t2 = true ->
     t1 = t2)
    /\ (templateHighlighted st t1 = true ->
        templateLabelHighlighted st t1 = true)
    /\ filter (templateHighlighted (act st (ChooseTemplate t1))) TEMPLATES = [t1]
    /\ bgColor (act st (ChooseTemplate t1)) = t_bgColor t1
    /\ textColor (act st (ChooseTemplate t1)) = t_textColor t1
    /\ accentColor (act st (ChooseTemplate t1)) = t_accentColor t1.
Proof.
  intros st t1 t2 H1 H2.
  apply In_TEMPLATES in H1. apply In_TEMPLATES in H2.
  split; [|split; [|split; [|repeat split]]].
  - unfold templateHighlighted. intros E1 E2.
    apply andb_true_iff in E1. apply andb_true_iff in E2.
    destruct E1 as [E1 _]. destruct E2 as [E2 _].
    apply String.eqb_eq in E1. apply String.eqb_eq in E2.
    rewrite E1 in E2. clear E1.
    destruct H1 as [-> | [-> | [-> | ->]]];
      destruct H2 as [-> | [-> | [-> | ->]]];
      try reflexivity; cbn in E2; discriminate E2.
  - unfold templateHighlighted, templateLabelHighlighted.
    intro E. now apply andb_true_iff in E.
  - destruct H1 as [-> | [-> | [-> | ->]]]; reflexivity.
Qed.

Lemma X8_witness :
  let sky := mkTemplate "sky" "Sky" "#f0f9ff" "#075985" "#0ea5e9" in
  filter (templateHighlighted (act Sample.form (ChooseTemplate sky))) TEMPLATES
  = [sky].
Proof.
  cbv zeta.
  refine (proj1 (proj2 (proj2
    (X8_one_template_at_a_time Sample.form
       (mkTemplate "sky" "Sky" "#f0f9ff" "#075985" "#0ea5e9")
       (mkTemplate "sky" "Sky" "#f0f9ff" "#075985" "#0ea5e9") _ _))));
    cbn; tauto.
Defined.

(** X9: a click on a preset theme is enough of a theme: that preset, and
    no other, is then highlighted, and submitting with a name filled in
    and at least one page asked for starts a run whose first request is
    the main-character prompt for that preset. *)
Theorem X9_preset_theme_starts_a_run :
  forall (svc : GenAI.Service) (st : AppState) (preset : string),
    In preset PRESET_THEMES ->
    childName st <> "" ->
    1 <= pageCount st ->
    let st' := act st (TypeTheme preset) in
    filter (themeHighlighted st') PRESET_THEMES = [preset]
    /\ hd_error (requests (handleGenerate svc st'))
       = Some (requestFor (promptFor 0 preset))
    /\ promptFor 0 preset
       = Spec.outerBefore
           ++ ("A main character " ++ preset ++ " coloring page")
           ++ Spec.outerAfter.
Proof.
  intros svc st preset Hin Hname Hn st'.
  assert (theme st' = preset) as Hth by reflexivity.
  assert (preset <> "") as Hne.
  { unfold PRESET_THEMES in Hin. cbn [In] in Hin.
    repeat (destruct Hin as [<- | Hin]; [discriminate|]). contradiction. }
  split; [|split].
  - unfold themeHighlighted. rewrite Hth.
    unfold PRESET_THEMES in Hin. cbn [In] in Hin.
    repeat (destruct Hin as [<- | Hin]; [reflexivity|]). contradiction.
  - destruct (run_exists svc st') as [m Hrun].
    assert (submitted st') as Hsub by (split; [exact Hname | now rewrite Hth]).
    destruct (run_summary svc st' m Hsub Hrun) as (Hreq & _).
    rewrite Hreq, Hth.
    assert (pageCount st' = pageCount st) as Hc by reflexivity.
    destruct (m <? pageCount st')%nat eqn:E; [reflexivity|].
    apply Nat.ltb_ge in E. destruct m as [|m]; [lia | reflexivity].
  - rewrite promptFor_unfold. reflexivity.
Qed.

Lemma X9_witness :
  hd_error (requests (handleGenerate Sample.alwaysOk
                        (act Sample.form (TypeTheme "Bluey"))))
  = Some (requestFor (promptFor 0 "Bluey")).
Proof.
  refine (proj1 (proj2
    (X9_preset_theme_starts_a_run Sample.alwaysOk Sample.form "Bluey" _ _ _)));
    [cbn; tauto | discriminate | cbn; lia].
Defined.

(** ** When a request counts as answered *)





(** ** Which pages share a prompt *)

Lemma append_cancel_l (s a b : string) : s ++ a = s ++ b -> a = b.
Proof.
  induction s as [|c s IH]; cbn [append]; intro H; [exact H|].
  injection H as H. now apply IH.
Qed.

Lemma variationTemplate_inj (themeText : string) (i j : nat) :
  i < 5 -> j < 5 ->
  Spec.variationTemplate i themeText ++ Spec.outerAfter
  = Spec.variationTemplate j themeText ++ Spec.outerAfter ->
  i = j.
Proof.
  intros Hi Hj.
  destruct i as [|[|[|[|[|i]]]]]; try lia;
    destruct j as [|[|[|[|[|j]]]]]; try lia;
    try reflexivity; cbn [Spec.variationTemplate append]; intro H;
    discriminate H.
Qed.

(** X11: two pages get the same prompt exactly when their indices agree
    modulo five, whatever the theme; so within one book (at most five
    pages) all prompts, and all requests, are different. *)
Theorem X11_same_prompt_iff_congruent_mod_5 :
  forall (themeText : string) (i j : nat),
    (promptFor i themeText = promptFor j themeText <-> i mod 5 = j mod 5)
    /\ (i < 5 -> j < 5 -> i <> j ->
        requestFor (promptFor i themeText) <> requestFor (promptFor j themeText)).
Proof.
  intros themeText i j.
  assert (promptFor i themeText = promptFor j themeText <-> i mod 5 = j mod 5)
    as Hiff.
  { rewrite !promptFor_unfold. split.
    - intro H. apply append_cancel_l in H.
      apply (variationTemplate_inj themeText); try exact H;
        apply Nat.mod_upper_bound; discriminate.
    - intros ->. reflexivity. }
  split; [exact Hiff|].
  intros Hi Hj Hne Heq. apply Hne.
  assert (promptFor i themeText = promptFor j themeText) as Hp
    by (apply (f_equal GenAI.contents_text) in Heq; exact Heq).
  apply Hiff in Hp.
  rewrite (Nat.mod_small i 5 Hi), (Nat.mod_small j 5 Hj) in Hp. exact Hp.
Qed.

Lemma X11_witness :
  promptFor 7 "Bluey" = promptFor 2 "Bluey"
  /\ requestFor (promptFor 1 "Bluey") <> requestFor (promptFor 4 "Bluey").
Proof.
  split.
  - apply (proj1 (X11_same_prompt_iff_congruent_mod_5 "Bluey" 7 2)).
    reflexivity.
  - apply (proj2 (X11_same_prompt_iff_congruent_mod_5 "Bluey" 1 4));
      [lia | lia | discriminate].
Defined.

(** ** What is on screen while a run is going on *)

Lemma statesAtRequests_app (tr1 tr2 : Trace) :
  forall st,
    statesAtRequests st (tr1 ++ tr2)%list
    = (statesAtRequests st tr1
       ++ statesAtRequests (applyTrace st tr1) tr2)%list.
Proof.
  induction tr1 as [|ev tr1 IH]; intro st; [reflexivity|].
  cbn [app statesAtRequests]. rewrite IH, <- app_assoc. reflexivity.
Qed.

Lemma statesAtRequests_iterations (st : AppState) (ps : list GeneratedPage) :
  forall len a,
    statesAtRequests (pendingState st ps a)
      (flat_map (iteration (theme st) (pageCount st) [] ps 0) (seq a len))
    = map (pendingState st ps) (seq a len)
    /\ applyTrace (pendingState st ps a)
         (flat_map (iteration (theme st) (pageCount st) [] ps 0) (seq a len))
       = pendingState st ps (a + len).
Proof.
  induction len as [|len IH]; intro a.
  - cbn [seq flat_map map statesAtRequests]. rewrite Nat.add_0_r.
    split; reflexivity.
  - cbn [seq flat_map map]. unfold iteration at 1 3.
    cbn [app statesAtRequests Nat.add]. unfold applyTrace. cbn [fold_left].
    change (applyEvent
              (applyEvent
                 (applyEvent (pendingState st ps a)
                    (GenerateContent (requestFor (promptFor a (theme st)))))
                 (SetPages (firstn (S a) ps)))
              (SetProgress
                 (Js.num_of_nat (S a) / Js.num_of_nat (pageCount st) * 100)%float))
      with (pendingState st ps (S a)).
    destruct (IH (S a)) as [H1 H2]. unfold applyTrace in H2.
    rewrite H1, H2, Nat.add_succ_r. split; reflexivity.
Qed.

Lemma statesAtRequests_run (svc : GenAI.Service) (st : AppState) (m : nat) :
  submitted st ->
  runOf svc st m ->
  statesAtRequests st (handleGenerate svc st)
  = map (pendingState st (collected svc (theme st) 0 0 m))
        (seq 0 (if (m <? pageCount st)%nat then S m else m)).
Proof.
  intros Hsub Hrun.
  set (ps := collected svc (theme st) 0 0 m).
  assert (applyTrace st preamble = pendingState st ps 0) as Hpre
    by (unfold pendingState; destruct ps; reflexivity).
  assert (statesAtRequests st preamble = []) as Hnone by reflexivity.
  destruct (statesAtRequests_iterations st ps m 0) as [Hbody Hend].
  cbn [Nat.add] in Hend.
  destruct (handleGenerate_shape svc st m Hsub Hrun)
    as [[Hm Heq] | [Hm [err Heq]]]; rewrite Heq; fold ps.
  - assert ((m <? pageCount st)%nat = false) as -> by (apply Nat.ltb_ge; lia).
    rewrite !statesAtRequests_app, Hnone, Hpre, Hbody, Hend.
    cbn [app statesAtRequests]. now rewrite app_nil_r.
  - assert ((m <? pageCount st)%nat = true) as -> by (apply Nat.ltb_lt; lia).
    rewrite !statesAtRequests_app, Hnone, Hpre, Hbody, Hend.
    unfold failure. cbn [app statesAtRequests].
    now rewrite seq_S, map_app.
Qed.

(** X12: while the request for page [k] is pending the component shows:
    the busy flag set, no error, the [k] pages generated so far, and a
    progress of [k / n * 100] (0 at the start).  This holds for every
    request of the run, the failing one included. *)
Theorem X12_state_while_a_request_is_pending :
  forall (svc : GenAI.Service) (st : AppState) (m : nat),
    childName st <> "" ->
    theme st <> "" ->
    runOf svc st m ->
    let shown := statesAtRequests st (handleGenerate svc st) in
    let ps := collected svc (theme st) 0 0 m in
    shown
    = map (pendingState st ps) (seq 0 (if (m <? pageCount st)%nat then S m else m))
    /\ List.length shown = List.length (requests (handleGenerate svc st))
    /\ Forall (fun s => isGenerating s = true /\ error s = None
                        /\ errorBannerRendered s = false) shown
    /\ map (fun s => map id (pages s)) shown
       = map (fun k => seq 0 k)
             (seq 0 (if (m <? pageCount st)%nat then S m else m)).
Proof.
  intros svc st m Hname Htheme Hrun shown ps. subst shown.
  pose proof (conj Hname Htheme : submitted st) as Hsub.
  rewrite (statesAtRequests_run svc st m Hsub Hrun). fold ps.
  destruct (run_summary svc st m Hsub Hrun) as (Hreq & _).
  pose proof Hrun as (Hle & Hok & _).
  destruct (collected_all svc (theme st) m 0 0 Hok) as (Hlen & Hid & _).
  fold ps in Hlen, Hid.
  split; [reflexivity|]. split; [now rewrite Hreq, !length_map|]. split.
  - apply Forall_forall. intros s Hin. apply in_map_iff in Hin.
    destruct Hin as (k & <- & _). repeat split.
  - rewrite map_map. apply map_ext_in. intros k Hk. apply in_seq in Hk.
    unfold pendingState. cbn [pages].
    rewrite <- firstn_map, Hid. apply firstn_seq_le.
    destruct (m <? pageCount st)%nat; lia.
Qed.

Lemma X12_witness :
  map (fun s => map id (pages s))
      (statesAtRequests Sample.form (handleGenerate (Sample.failingAt 2) Sample.form))
  = [[]; [0]; [0; 1]].
Proof.
  assert (runOf (Sample.failingAt 2) Sample.form 2) as Hrun.
  { split; [cbn; lia|]. split.
    - intros k Hk. destruct k as [|[|k]]; [reflexivity | reflexivity | lia].
    - intros _. reflexivity. }
  exact (proj2 (proj2 (proj2
    (X12_state_while_a_request_is_pending (Sample.failingAt 2) Sample.form 2
       ltac:(discriminate) ltac:(discriminate) Hrun)))).
Defined.

Lemma label_values (st : AppState) (ps : list GeneratedPage) (k : nat) :
  1 <= pageCount st <= 5 ->
  k < pageCount st ->
  drawingPageNumber (pendingState st ps k)
  = Js.num_of_nat
      (if (pageCount st =? 3)%nat && (0 <? k)%nat then k else S k)
  /\ percentShown (pendingState st ps k)
     = Js.num_of_nat ((200 * k + pageCount st) / (2 * pageCount st)).
Proof.
  intros Hn Hk.
  unfold drawingPageNumber, percentShown, pendingState.
  cbn [progress pageCount].
  destruct (pageCount st) as [|[|[|[|[|[|n]]]]]]; try lia;
    destruct k as [|[|[|[|[|k]]]]]; try lia;
    split; vm_compute; reflexivity.
Qed.

(** X13: the label "Drawing page ... of n" shows [k + 1] while the
    request for page [k] is pending, except in a three-page book, where
    rounding makes it stay one behind from the second request on ("page 1
    of 3" while page 1 is requested, "page 2 of 3" while page 2 is); the
    percentage next to it is [100 k / n] rounded to the nearest integer. *)
Theorem X13_progress_label_during_a_run :
  forall (svc : GenAI.Service) (st : AppState) (m : nat),
    childName st <> "" ->
    theme st <> "" ->
    1 <= pageCount st <= 5 ->
    runOf svc st m ->
    let shown := statesAtRequests st (handleGenerate svc st) in
    let sent := if (m <? pageCount st)%nat then S m else m in
    map drawingPageNumber shown
    = map (fun k => Js.num_of_nat
                      (if (pageCount st =? 3)%nat && (0 <? k)%nat
                       then k else S k))
          (seq 0 sent)
    /\ map percentShown shown
       = map (fun k => Js.num_of_nat
                         ((200 * k + pageCount st) / (2 * pageCount st)))
             (seq 0 sent).
Proof.
  intros svc st m Hname Htheme Hn Hrun shown sent. subst shown sent.
  rewrite (statesAtRequests_run svc st m (conj Hname Htheme) Hrun).
  rewrite !map_map.
  destruct Hrun as (Hle & _).
  split; apply map_ext_in; intros k Hk; apply in_seq in Hk;
    apply label_values; try exact Hn;
    destruct (m <? pageCount st)%nat eqn:E;
    try apply Nat.ltb_lt in E; lia.
Qed.

Lemma X13_witness :
  map drawingPageNumber
      (statesAtRequests Sample.form (handleGenerate Sample.alwaysOk Sample.form))
  = [1; 1; 2]%float
  /\ map percentShown
         (statesAtRequests Sample.form (handleGenerate Sample.alwaysOk Sample.form))
     = [0; 33; 67]%float.
Proof.
  assert (runOf Sample.alwaysOk Sample.form 3) as Hrun.
  { split; [cbn; lia|]. split; [intros k _; reflexivity | cbn; lia]. }
  exact (X13_progress_label_during_a_run Sample.alwaysOk Sample.form 3
           ltac:(discriminate) ltac:(discriminate) ltac:(cbn; lia) Hrun).
Defined.

(** ** What the cover and the image sheets depend on *)

(** X14: the colours and the theme reach the cover only, and the pages
    after the first reach the image sheets only: two states with the same
    pages and recipient name give the same image sheets whatever their
    colours and themes, and two states with the same first page, name,
    theme, background and text colour give the same cover whatever their
    other pages. *)
Theorem X14_cover_and_image_sheets_are_separate :
  forall (pageWidth pageHeight : Js.number) (st1 st2 : AppState),
    (pages st1 = pages st2 ->
     childName st1 = childName st2 ->
     tl (JsPDF.sheets (assembled pageWidth pageHeight st1))
     = tl (JsPDF.sheets (assembled pageWidth pageHeight st2)))
    /\ (hd_error (pages st1) = hd_error (pages st2) ->
        childName st1 = childName st2 ->
        theme st1 = theme st2 ->
        bgColor st1 = bgColor st2 ->
        textColor st1 = textColor st2 ->
        hd [] (JsPDF.sheets (assembled pageWidth pageHeight st1))
        = hd [] (JsPDF.sheets (assembled pageWidth pageHeight st2))).
Proof.
  intros pageWidth pageHeight st1 st2. rewrite !sheets_assembled.
  cbn [hd tl]. split.
  - intros Hp Hn. rewrite Hp. apply map_ext. intro page.
    unfold Spec.imageSheet. now rewrite Hn.
  - intros Hp Hn Hth Hbg Htx.
    unfold Spec.coverSheet, Spec.backgroundColor, Spec.titleColor,
      Spec.fadedTitleColor.
    now rewrite Hp, Hn, Hth, Hbg, Htx.
Qed.

Lemma X14_witness :
  let berry :=
    mkState "Aaru" "Frozen" 5 "#fdf2f8" "#9d174d" "#ec4899" false 0%float
            [mkPage 0 "a" ""; mkPage 1 "b" ""] None in
  let classic :=
    mkState "Aaru" "Bluey" 2 "#f5f5f0" "#282828" "#f97316" false 100%float
            [mkPage 0 "a" ""; mkPage 1 "b" ""] None in
  tl (JsPDF.sheets (assembled Sample.a4Width Sample.a4Height berry))
  = tl (JsPDF.sheets (assembled Sample.a4Width Sample.a4Height classic)).
Proof.
  cbv zeta.
  exact (proj1 (X14_cover_and_image_sheets_are_separate
                  Sample.a4Width Sample.a4Height
                  (mkState "Aaru" "Frozen" 5 "#fdf2f8" "#9d174d" "#ec4899"
                           false 0%float [mkPage 0 "a" ""; mkPage 1 "b" ""] None)
                  (mkState "Aaru" "Bluey" 2 "#f5f5f0" "#282828" "#f97316"
                           false 100%float [mkPage 0 "a" ""; mkPage 1 "b" ""] None))
               eq_refl eq_refl).
Defined.

(** ** The numbers [hexToRgb] can return *)

Lemma hexDigit_range (c : ascii) (v : Z) :
  Js.hexDigit c = Some v -> (0 <= v <= 15)%Z.
Proof.
  intro H. apply hexDigit_table in H. unfold hexDigitTable in H.
  cbn [In] in H.
  repeat (destruct H as [H | H]; [injection H as <- <-; lia|]).
  contradiction.
Qed.

(** What [parseInt] makes of the digits once sign and prefix are gone. *)
Lemma hexPrefix_short (s : string) :
  String.length s <= 2 ->
  match Js.hexPrefix s None with
  | Some v => (0 <= v <= 255)%Z /\ (String.length s <= 1 -> (v <= 15)%Z)
  | None => True
  end.
Proof.
  destruct s as [|c1 [|c2 [|c3 s]]]; cbn [String.length Js.hexPrefix];
    intro Hlen; try lia; try exact I.
  - destruct (Js.hexDigit c1) as [v1|] eqn:E1; [|exact I].
    apply hexDigit_range in E1. split; lia.
  - destruct (Js.hexDigit c1) as [v1|] eqn:E1; [|exact I].
    apply hexDigit_range in E1.
    destruct (Js.hexDigit c2) as [v2|] eqn:E2.
    + apply hexDigit_range in E2. split; lia.
    + split; lia.
Qed.

Lemma stripHexPrefix_short (s : string) :
  String.length s <= 2 ->
  Js.stripHexPrefix s = s \/ Js.stripHexPrefix s = "".
Proof.
  destruct s as [|c1 [|c2 [|c3 s]]]; cbn [String.length]; intro Hlen;
    try lia; try (left; reflexivity).
  - destruct c1 as [[] [] [] [] [] [] [] []]; left; reflexivity.
  - destruct c1 as [[] [] [] [] [] [] [] []]; try (left; reflexivity).
    destruct c2 as [[] [] [] [] [] [] [] []];
      try (left; reflexivity); right; reflexivity.
Qed.

Lemma stripSign_short (s : string) :
  (Js.stripSign s = (1%Z, s))
  \/ (exists sign rest,
        Js.stripSign s = (sign, rest) /\ (sign = 1 \/ sign = -1)%Z
        /\ S (String.length rest) = String.length s).
Proof.
  destruct s as [|c s]; [left; reflexivity|].
  destruct c as [[] [] [] [] [] [] [] []]; try (left; reflexivity);
    right; eexists; eexists; (split; [reflexivity|]); split;
    try reflexivity; tauto.
Qed.

Lemma trimStart_length (s : string) :
  String.length (Js.trimStart s) <= String.length s.
Proof.
  induction s as [|c s IH]; [cbn; lia|].
  cbn [Js.trimStart]. destruct (Js.isWhiteSpace c); cbn [String.length] in *; lia.
Qed.

Lemma parseInt16_short (s : string) :
  String.length s <= 2 ->
  Js.parseInt16 s = Js.NaN
  \/ exists v, (0 <= v <= 255)%Z
               /\ (Js.parseInt16 s = Js.num_of_Z v
                   \/ ((v <= 15)%Z
                       /\ Js.parseInt16 s = (- Js.num_of_Z v)%float)).
Proof.
  intro Hlen. unfold Js.parseInt16.
  pose proof (trimStart_length s) as Htrim.
  destruct (stripSign_short (Js.trimStart s))
    as [-> | (sign & rest & -> & Hsign & Hrest)].
  - destruct (stripHexPrefix_short (Js.trimStart s) ltac:(lia)) as [-> | ->];
      [|left; reflexivity].
    pose proof (hexPrefix_short (Js.trimStart s) ltac:(lia)) as Hv.
    destruct (Js.hexPrefix (Js.trimStart s) None) as [v|]; [|left; reflexivity].
    right. exists v. split; [lia | left; reflexivity].
  - destruct (stripHexPrefix_short rest ltac:(lia)) as [-> | ->];
      [|left; reflexivity].
    pose proof (hexPrefix_short rest ltac:(lia)) as Hv.
    destruct (Js.hexPrefix rest None) as [v|]; [|left; reflexivity].
    right. exists v. destruct Hv as [Hv1 Hv2]. specialize (Hv2 ltac:(lia)).
    split; [lia|].
    destruct Hsign as [-> | ->]; [left; reflexivity|].
    right. split; [lia | reflexivity].
Qed.

Lemma substring_length_le (n m : nat) :
  forall s, String.length (substring n m s) <= m.
Proof.
  revert m. induction n as [|n IHn]; intros m s.
  - revert s. induction m as [|m IHm]; intro s.
    + destruct s; cbn; lia.
    + destruct s as [|c s]; [cbn; lia|].
      cbn [substring String.length]. specialize (IHm s). lia.
  - destruct s as [|c s]; [cbn; lia|]. cbn [substring]. apply IHn.
Qed.

(** X15: whatever string it is given, [hexToRgb] returns for each
    component either [NaN], or an integer between 0 and 255, or the
    negative of an integer between 0 and 15 (the negative zero included):
    the two characters of a pair can at most spell two digits, or a sign
    and one digit. *)
Theorem X15_components_are_NaN_or_small_integers :
  forall hex : string,
    let num (v : Z) : Js.number := PrimFloat.of_uint63 (Uint63.of_Z v) in
    let ok (x : Js.number) :=
      x = Js.NaN
      \/ exists v, (0 <= v <= 255)%Z
                   /\ (x = num v \/ ((v <= 15)%Z /\ x = (- num v)%float)) in
    ok (at0 (hexToRgb hex)) /\ ok (at1 (hexToRgb hex)) /\ ok (at2 (hexToRgb hex)).
Proof.
  intros hex num ok.
  assert (forall s, String.length s <= 2 -> ok (Js.parseInt16 s)) as Hok.
  { intros s Hs. destruct (parseInt16_short s Hs) as [H | (v & Hv & H)];
      [left; exact H|].
    right. exists v. split; [exact Hv|]. subst num. cbv beta.
    rewrite <- (num_of_Z_byte v Hv). exact H. }
  unfold hexToRgb, at0, at1, at2, Js.slice. cbn [fst snd Nat.sub].
  repeat split; apply Hok; apply substring_length_le.
Qed.

Example component_bounds_are_attained :
  hexToRgb "#-fFFzz" = ((-15)%float, 255%float, Js.NaN)
  /\ hexToRgb "#-0+0 0" = ((-0)%float, 0%float, 0%float).
Proof. split; reflexivity. Qed.

(** ** The fireworks in the background *)

Section FireworksFacts.

Import Fireworks.

Variable env : Env.

Lemma alpha_after_updates (p : Particle) (n j : nat) :
  alpha p = alphaAfter n ->
  alpha (Nat.iter j update p) = alphaAfter (j + n).
Proof.
  intro H. induction j as [|j IH]; [exact H|].
  change (Nat.iter (S j) update p) with (update (Nat.iter j update p)).
  cbn [Nat.add alphaAfter update alpha]. now rewrite IH.
Qed.

Lemma visible_for_100_updates :
  forallb (fun j => (0 <? alphaAfter j)%float) (seq 0 100) = true
  /\ (alphaAfter 100 <? 0)%float = true
  /\ (0 <? alphaAfter 100)%float = false.
Proof. vm_compute. repeat split. Qed.

Lemma pushParticles_appends (todo : nat) :
  forall (n : nat) (x0 y0 : Js.number) (c : option string) (ps : list Particle),
  exists fresh,
    pushParticles env todo n x0 y0 c ps = ((ps ++ fresh)%list, n + 2 * todo)
    /\ List.length fresh = todo
    /\ Forall (fun p => x p = x0 /\ y p = y0 /\ color p = c
                        /\ alpha p = 1%float) fresh.
Proof.
  induction todo as [|todo IH]; intros n x0 y0 c ps.
  - exists []. cbn [pushParticles]. rewrite app_nil_r, Nat.add_0_r.
    repeat split. constructor.
  - cbn [pushParticles newParticle].
    destruct (IH (S (S n)) x0 y0 c
                 (ps ++ [mkParticle x0 y0
                           (cos env (random env n * JsMath.PI * 2)
                            * (random env (S n) * 3 + 1))%float
                           (sin env (random env n * JsMath.PI * 2)
                            * (random env (S n) * 3 + 1))%float
                           1%float c 0.05%float 0.98%float])%list)
      as (fresh & Heq & Hlen & Hall).
    eexists (_ :: fresh). rewrite Heq, <- app_assoc. cbn [app].
    split; [f_equal; lia|]. split; [cbn; lia|].
    constructor; [repeat split | exact Hall].
Qed.

Lemma createFirework_appends (width height : Js.number) (n : nat)
    (ps : list Particle) :
  exists fresh,
    createFirework env width height n ps = ((ps ++ fresh)%list, n + 63)
    /\ List.length fresh = 30
    /\ Forall (fun p =>
                 x p = (random env n * width)%float
                 /\ y p = (random env (S n) * (height * 0.5))%float
                 /\ color p
                    = elementAt colors 0
                        (JsMath.floor (random env (S (S n)) * 5)%float)
                 /\ alpha p = 1%float) fresh.
Proof.
  unfold createFirework.
  destruct (pushParticles_appends 30 (S (S (S n)))
              (random env n * width)%float
              (random env (S n) * (height * 0.5))%float
              (elementAt colors 0
                 (JsMath.floor
                    (random env (S (S n))
                     * Js.num_of_nat (List.length colors))%float)) ps)
    as (fresh & Heq & Hlen & Hall).
  exists fresh. rewrite Heq. split; [f_equal; lia|]. split; [exact Hlen|].
  exact Hall.
Qed.

Lemma fresh_particles_are_alive (fresh : list Particle) :
  Forall (fun p => alpha p = 1%float) fresh ->
  filter (fun p => (0 <? alpha p)%float) fresh = fresh.
Proof.
  induction 1 as [|p fresh Hp _ IH]; [reflexivity|].
  cbn [filter]. rewrite Hp, IH. reflexivity.
Qed.

(** One frame: the particles that are still visible are moved, in their
    order, and the particles of a new firework, if there is one, come
    after them. *)
Lemma render_frame (width height : Js.number) (s : Scene) :
  exists fresh,
    particles (fst (render env width height s))
    = (map update (filter (fun p => (0 <? alpha p)%float) (particles s))
       ++ map update fresh)%list
    /\ snd (render env width height s)
       = ClearRect 0%float 0%float width height
         :: flat_map draw (particles (fst (render env width height s)))
    /\ if (random env (used s) <? 0.02)%float
       then List.length fresh = 30
            /\ used (fst (render env width height s)) = used s + 64
            /\ Forall (fun p =>
                         x p = (random env (S (used s)) * width)%float
                         /\ y p = (random env (S (S (used s)))
                                    * (height * 0.5))%float
                         /\ color p
                            = elementAt colors 0
                                (JsMath.floor
                                   (random env (S (S (S (used s)))) * 5)%float)
                         /\ alpha p = 1%float) fresh
       else fresh = []
            /\ used (fst (render env width height s)) = used s + 1.
Proof.
  unfold render.
  destruct (random env (used s) <? 0.02)%float.
  - destruct (createFirework_appends width height (S (used s)) (particles s))
      as (fresh & Heq & Hlen & Hall).
    exists fresh. rewrite Heq. cbn [fst snd particles used].
    rewrite filter_app, map_app, (fresh_particles_are_alive fresh).
    + repeat split; [exact Hlen | lia | exact Hall].
    + eapply Forall_impl; [|exact Hall]. now intros p (_ & _ & _ & H).
  - exists []. cbn [fst snd particles used map].
    rewrite app_nil_r. repeat split. lia.
Qed.

Lemma draw_calls (ps : list Particle) :
  List.length (flat_map draw ps) = 7 * List.length ps.
Proof.
  induction ps as [|p ps IH]; [reflexivity|].
  cbn [flat_map]. rewrite length_app, IH. cbn [draw List.length]. lia.
Qed.

(** *** How many particles there can be *)

Lemma aged_length (ps : list Particle) :
  aged 1 100 ps -> List.length ps <= 3000.
Proof.
  destruct ps as [|p rest]; [cbn; lia|].
  intros [(n & _ & Hn & Hd) _]. cbn [List.length]. lia.
Qed.

Lemma aged_alpha (lo limit : nat) (ps : list Particle) :
  aged lo limit ps ->
  Forall (fun p => exists n, lo <= n <= limit /\ alpha p = alphaAfter n) ps.
Proof.
  induction ps as [|p rest IH]; [constructor|].
  intros [(n & Ha & Hn & _) Hrest].
  constructor; [exists n; split; assumption | now apply IH].
Qed.

Lemma aged_fresh (limit : nat) (fresh : list Particle) :
  Forall (fun p => alpha p = 1%float) fresh ->
  List.length fresh <= 30 ->
  aged 0 limit fresh.
Proof.
  induction 1 as [|p fresh Hp _ IH]; intro Hlen; [exact I|].
  cbn [List.length] in Hlen. split; [|apply IH; lia].
  exists 0. repeat split; [exact Hp | lia | lia | lia].
Qed.

Lemma aged_push (limit : nat) (ps fresh : list Particle) :
  aged 1 limit ps ->
  Forall (fun p => alpha p = 1%float) fresh ->
  List.length fresh <= 30 ->
  aged 0 limit (ps ++ fresh).
Proof.
  intros Hps Hfresh Hlen.
  induction ps as [|p rest IH]; [now apply aged_fresh|].
  destruct Hps as [(n & Ha & Hn & Hd) Hrest].
  cbn [app]. split; [|now apply IH].
  exists n. rewrite length_app. repeat split; [exact Ha | lia | lia | lia].
Qed.

Lemma aged_filter (ps : list Particle) :
  aged 0 100 ps ->
  aged 0 99 (filter (fun p => (0 <? alpha p)%float) ps).
Proof.
  induction ps as [|p rest IH]; [intros _; exact I|].
  intros [(n & Ha & Hn & Hd) Hrest]. specialize (IH Hrest).
  cbn [filter]. destruct (0 <? alpha p)%float eqn:E; [|exact IH].
  split; [|exact IH].
  assert (n <> 100) as Hne.
  { intros ->. rewrite Ha in E.
    rewrite (proj2 (proj2 visible_for_100_updates)) in E. discriminate E. }
  pose proof (filter_length_le (fun p => (0 <? alpha p)%float) rest) as Hle.
  exists n. repeat split; [exact Ha | lia | lia | lia].
Qed.

Lemma aged_update (ps : list Particle) :
  aged 0 99 ps -> aged 1 100 (map update ps).
Proof.
  induction ps as [|p rest IH]; [intros _; exact I|].
  intros [(n & Ha & Hn & Hd) Hrest].
  cbn [map]. split; [|now apply IH].
  exists (S n). rewrite length_map. cbn [update alpha alphaAfter].
  rewrite Ha. repeat split; lia.
Qed.

Lemma render_aged (width height : Js.number) (s : Scene) :
  aged 1 100 (particles s) ->
  aged 1 100 (particles (fst (render env width height s))).
Proof.
  intro Hs. unfold render.
  destruct (random env (used s) <? 0.02)%float.
  - destruct (createFirework_appends width height (S (used s)) (particles s))
      as (fresh & Heq & Hlen & Hall).
    rewrite Heq. cbn [fst particles].
    apply aged_update, aged_filter, aged_push; [exact Hs | | lia].
    eapply Forall_impl; [|exact Hall]. now intros p (_ & _ & _ & H).
  - cbn [fst particles]. apply aged_update, aged_filter.
    rewrite <- (app_nil_r (particles s)).
    apply aged_push; [exact Hs | constructor | cbn; lia].
Qed.

Lemma animate_aged (sizes : list (Js.number * Js.number)) :
  aged 1 100 (particles (animate env sizes)).
Proof.
  unfold animate.
  assert (aged 1 100 (particles (mkScene [] 0))) as H0 by exact I.
  revert H0. generalize (mkScene [] 0).
  induction sizes as [|size sizes IH]; intros s Hs; [exact Hs|].
  cbn [fold_left]. apply IH. now apply render_aged.
Qed.

End FireworksFacts.

(** X16: every particle lives for exactly 100 frames.  A new particle
    passes the visibility test of each of its first 100 frames, being
    updated 0 to 99 times by then; its 100th update takes [alpha] just
    below zero (rounding: one hundred subtractions of 0.01 from 1 do not
    end at 0), so its last drawing sets a negative [globalAlpha], and the
    next frame drops it. *)
Theorem X16_particles_live_100_frames :
  forall (env : Fireworks.Env) (n : nat) (x0 y0 : Js.number)
         (c : option string) (j : nat),
    let p := fst (Fireworks.newParticle env n x0 y0 c) in
    let visible (q : Fireworks.Particle) := (0 <? Fireworks.alpha q)%float in
    (j < 100 -> visible (Nat.iter j Fireworks.update p) = true)
    /\ visible (Nat.iter 100 Fireworks.update p) = false
    /\ (Fireworks.alpha (Nat.iter 100 Fireworks.update p) <? 0)%float = true
    /\ In (Fireworks.SetGlobalAlpha (Fireworks.alphaAfter 100))
          (Fireworks.draw (Nat.iter 100 Fireworks.update p)).
Proof.
  intros env n x0 y0 c j p visible. subst visible.
  assert (Fireworks.alpha p = Fireworks.alphaAfter 0) as H0 by reflexivity.
  destruct visible_for_100_updates as (Hvis & Hneg & Hgone).
  split; [|split; [|split]].
  - intro Hj. rewrite (alpha_after_updates p 0 j H0), Nat.add_0_r.
    rewrite forallb_forall in Hvis. apply Hvis. apply in_seq. lia.
  - rewrite (alpha_after_updates p 0 100 H0). exact Hgone.
  - rewrite (alpha_after_updates p 0 100 H0). exact Hneg.
  - unfold Fireworks.draw. right. left.
    now rewrite (alpha_after_updates p 0 100 H0).
Qed.

Lemma X16_witness :
  let env := Fireworks.mkEnv (fun _ => 0.5%float) (fun a => a) (fun a => a) in
  let p := fst (Fireworks.newParticle env 0 10%float 20%float (Some "#FF6B6B")) in
  (0 <? Fireworks.alpha (Nat.iter 99 Fireworks.update p))%float = true
  /\ (0 <? Fireworks.alpha (Nat.iter 100 Fireworks.update p))%float = false.
Proof.
  cbv zeta.
  pose proof (X16_particles_live_100_frames
                (Fireworks.mkEnv (fun _ => 0.5%float) (fun a => a) (fun a => a))
                0 10%float 20%float (Some "#FF6B6B") 99) as H.
  cbv zeta in H. destruct H as (H99 & H100 & _).
  split; [apply H99; lia | exact H100].
Defined.

(** X17: what one frame does.  The particles that are still visible are
    updated and kept in their order; when the first random number of the
    frame is below 0.02 a firework of exactly 30 particles is added after
    them, all at one point and in one colour, using 64 random numbers in
    all; otherwise nothing is added and one random number is used.  The
    canvas is cleared once and every remaining particle is drawn with
    seven calls. *)
Theorem X17_one_frame :
  forall (env : Fireworks.Env) (width height : Js.number)
         (s : Fireworks.Scene),
    let s' := fst (Fireworks.render env width height s) in
    let ops := snd (Fireworks.render env width height s) in
    let survivors :=
      map Fireworks.update
          (filter (fun p => (0 <? Fireworks.alpha p)%float)
                  (Fireworks.particles s)) in
    exists fresh,
      Fireworks.particles s' = (survivors ++ map Fireworks.update fresh)%list
      /\ ops = Fireworks.ClearRect 0%float 0%float width height
               :: flat_map Fireworks.draw (Fireworks.particles s')
      /\ List.length ops = 1 + 7 * List.length (Fireworks.particles s')
      /\ List.length (Fireworks.particles s')
         <= List.length (Fireworks.particles s) + 30
      /\ if (Fireworks.random env (Fireworks.used s) <? 0.02)%float
         then List.length fresh = 30
              /\ Fireworks.used s' = Fireworks.used s + 64
              /\ Forall
                   (fun p =>
                      Fireworks.x p
                      = (Fireworks.random env (S (Fireworks.used s)) * width)%float
                      /\ Fireworks.y p
                         = (Fireworks.random env (S (S (Fireworks.used s)))
                            * (height * 0.5))%float
                      /\ Fireworks.color p
                         = elementAt Fireworks.colors 0
                             (JsMath.floor
                                (Fireworks.random env
                                   (S (S (S (Fireworks.used s)))) * 5)%float)
                      /\ Fireworks.alpha p = 1%float) fresh
         else fresh = [] /\ Fireworks.used s' = Fireworks.used s + 1.
Proof.
  intros env width height s s' ops survivors. subst s' ops survivors.
  destruct (render_frame env width height s) as (fresh & Hps & Hops & Hcase).
  exists fresh. split; [exact Hps|]. split; [exact Hops|].
  assert (List.length fresh <= 30) as Hfresh.
  { destruct (Fireworks.random env (Fireworks.used s) <? 0.02)%float.
    - destruct Hcase as (-> & _). lia.
    - destruct Hcase as (-> & _). cbn. lia. }
  split; [|split; [|exact Hcase]].
  - rewrite Hops. cbn [List.length]. rewrite draw_calls. lia.
  - rewrite Hps, length_app, !length_map.
    pose proof (filter_length_le
                  (fun p => (0 <? Fireworks.alpha p)%float)
                  (Fireworks.particles s)).
    lia.
Qed.

(** X18: the animation never piles up particles.  After any number of
    frames, whatever the random numbers and the canvas sizes were, there
    are at most 3000 particles, each of them has been updated between 1
    and 100 times, and a frame makes at most 1 + 7 * 3000 canvas
    calls. *)
Theorem X18_at_most_3000_particles :
  forall (env : Fireworks.Env) (sizes : list (Js.number * Js.number))
         (width height : Js.number),
    let s := Fireworks.animate env sizes in
    List.length (Fireworks.particles s) <= 3000
    /\ Forall (fun p => exists n, 1 <= n <= 100
                                  /\ Fireworks.alpha p = Fireworks.alphaAfter n)
              (Fireworks.particles s)
    /\ List.length (snd (Fireworks.render env width height s)) <= 1 + 7 * 3000.
Proof.
  intros env sizes width height s. subst s.
  pose proof (animate_aged env sizes) as Hs.
  split; [now apply aged_length|]. split; [now apply aged_alpha|].
  pose proof (render_aged env width height _ Hs) as Hnext.
  apply aged_length in Hnext.
  destruct (render_frame env width height (Fireworks.animate env sizes))
    as (fresh & _ & Hops & _).
  rewrite Hops. cbn [List.length]. rewrite draw_calls. lia.
Qed.

(** ** Saving the document *)

Lemma pageCalls_kinds (pageWidth pageHeight : Js.number) (st : AppState)
    (ps : list GeneratedPage) :
  filter isSave (flat_map (pageCalls pageWidth pageHeight st) ps) = []
  /\ List.length (filter isAddPage (flat_map (pageCalls pageWidth pageHeight st) ps))
     = List.length ps
  /\ List.length (flat_map (pageCalls pageWidth pageHeight st) ps)
     = 7 * List.length ps.
Proof.
  induction ps as [|p ps (IH1 & IH2 & IH3)]; [repeat split|].
  cbn [flat_map]. rewrite !filter_app, !length_app, IH1, IH2, IH3.
  cbn [pageCalls filter isSave isAddPage List.length app].
  repeat split; lia.
Qed.

(** X19: [downloadPDF] saves the document exactly once, as its very last
    call, under the recipient's name followed by [_Coloring_Book.pdf]
    (so an empty name gives [_Coloring_Book.pdf]); it starts one new sheet
    per page and makes 15 calls plus 7 per page, one more when there is a
    page to preview on the cover. *)
Theorem X19_saved_once_at_the_end :
  forall (pageWidth pageHeight : Js.number) (st : AppState),
    let calls := downloadPDF pageWidth pageHeight st in
    JsPDF.savedAs (assembled pageWidth pageHeight st)
    = Some (childName st ++ "_Coloring_Book.pdf")
    /\ filter isSave calls = [JsPDF.Save (childName st ++ "_Coloring_Book.pdf")]
    /\ last calls JsPDF.AddPage
       = JsPDF.Save (childName st ++ "_Coloring_Book.pdf")
    /\ List.length (filter isAddPage calls) = List.length (pages st)
    /\ List.length calls
       = 15 + 7 * List.length (pages st)
         + (if (0 <? List.length (pages st))%nat then 1 else 0).
Proof.
  intros pageWidth pageHeight st calls. subst calls.
  destruct (pageCalls_kinds pageWidth pageHeight st (pages st))
    as (Hsave & Hadd & Hlen).
  split; [|split; [|split; [|split]]].
  - unfold assembled, JsPDF.render, downloadPDF.
    rewrite !app_assoc, fold_left_app. reflexivity.
  - unfold downloadPDF. rewrite !filter_app, Hsave.
    unfold coverCalls. destruct (pages st); reflexivity.
  - unfold downloadPDF. rewrite !app_assoc. apply last_last.
  - unfold downloadPDF. rewrite !filter_app, !length_app, Hadd.
    unfold coverCalls. destruct (pages st); cbn; lia.
  - unfold downloadPDF. rewrite !length_app, Hlen.
    unfold coverCalls. destruct (pages st); cbn; lia.
Qed.

(** ** How many requests a run can make *)

Lemma promptFor_inj_below_5 (themeText : string) (i j : nat) :
  i < 5 -> j < 5 -> promptFor i themeText = promptFor j themeText -> i = j.
Proof.
  intros Hi Hj H. rewrite !promptFor_unfold in H.
  apply append_cancel_l in H.
  rewrite (Nat.mod_small i 5 Hi), (Nat.mod_small j 5 Hj) in H.
  now apply (variationTemplate_inj themeText).
Qed.

Lemma NoDup_snoc {A : Type} (l : list A) (x : A) :
  NoDup l -> ~ In x l -> NoDup (l ++ [x]).
Proof.
  induction 1 as [|y l Hy Hl IH]; intro Hx; cbn [app].
  - constructor; [intros [] | constructor].
  - constructor.
    + intro Hin. apply in_app_or in Hin. destruct Hin as [Hin | [-> | []]].
      * now apply Hy.
      * apply Hx. now left.
    + apply IH. intro Hin. apply Hx. now right.
Qed.

Lemma requests_distinct_below_5 (themeText : string) (n : nat) :
  n <= 5 ->
  NoDup (map (fun k => requestFor (promptFor k themeText)) (seq 0 n)).
Proof.
  intro Hn. induction n as [|n IH]; [constructor|].
  rewrite seq_S, map_app. cbn [map Nat.add].
  apply NoDup_snoc; [apply IH; lia|].
  intro Hin. apply in_map_iff in Hin. destruct Hin as (k & Heq & Hk).
  apply in_seq in Hk.
  apply (f_equal GenAI.contents_text) in Heq.
  cbn [requestFor GenAI.contents_text] in Heq.
  apply promptFor_inj_below_5 in Heq; lia.
Qed.

(** X20: however the form was used, one submission sends at most five
    requests, never more than the page count, they are the requests for
    the pages [0, 1, ...] in this order, and no two of them are the same. *)
Theorem X20_at_most_five_requests_per_run :
  forall (actions : list Action) (svc : GenAI.Service),
    let st := session actions in
    let sent := requests (handleGenerate svc st) in
    List.length sent <= pageCount st
    /\ List.length sent <= 5
    /\ sent = map (fun k => requestFor (promptFor k (theme st)))
                  (seq 0 (List.length sent))
    /\ NoDup sent.
Proof.
  intros actions svc st sent. subst sent.
  pose proof (pageCount_in_range actions) as Hn. fold st in Hn.
  destruct (submitted_dec st) as [Hsub | Hnot].
  - destruct (run_exists svc st) as [m Hrun].
    destruct (run_summary svc st m Hsub Hrun) as (Hreq & _).
    destruct Hrun as (Hle & _).
    rewrite Hreq, length_map, length_seq.
    assert ((if (m <? pageCount st)%nat then S m else m) <= pageCount st) as Hr.
    { destruct (m <? pageCount st)%nat eqn:E; [apply Nat.ltb_lt in E|]; lia. }
    repeat split; try lia.
    apply requests_distinct_below_5. lia.
  - assert (handleGenerate svc st = [PreventDefault]) as Heq.
    { unfold handleGenerate.
      destruct (isEmptyString (childName st)) eqn:E1; [reflexivity|].
      destruct (isEmptyString (theme st)) eqn:E2; [reflexivity|].
      exfalso. apply Hnot. split; intro H; rewrite H in *; discriminate. }
    rewrite Heq. cbn. repeat split; try lia. constructor.
Qed.
